(** * A shallow embedding of [languagebench/bench_python.py]

    The script times five counting loops and prints one report row per
    loop.  Its observable behaviour depends on three things that Python
    leaves implicit and that are explicit here:

    - the wall clock: [time.time()] is an oracle, the [clock] of the
      [world], read at successive [ticks];
    - standard output: the list of lines printed so far;
    - the object store: the [Obj] instance and the list built by two of
      the loops are heap cells reached through a reference.

    Python's [float] is IEEE 754 binary64, modelled with [SpecFloat] at
    precision 53; Python's [int] is [Z]; [str] is [string]. *)

From Stdlib Require Import ZArith NArith List String Ascii Lia Bool.
From Stdlib Require Import Floats.SpecFloat.
From Stdlib Require Import DecimalString DecimalFacts DecimalPos DecimalN.
From stdpp Require Import base gmap.
Import ListNotations.

Local Open Scope string_scope.
Local Open Scope Z_scope.

(** ** Floats *)

Module Float.

Definition prec : Z := 53.
Definition emax : Z := 1024.

Definition float : Type := spec_float.

(** [float(n)] for an [int] that fits; round to nearest even otherwise. *)
Definition of_int (n : Z) : float := binary_normalize prec emax n 0 false.

Definition add : float -> float -> float := SFadd prec emax.
Definition sub : float -> float -> float := SFsub prec emax.

(** The quotient the hardware computes; Python guards it, see
    [float_truediv] below. *)
Definition ieee_div : float -> float -> float := SFdiv prec emax.

(** The test [b == 0.0] of the interpreter: true of both zeros. *)
Definition is_zero (x : float) : bool :=
  match x with S754_zero _ => true | _ => false end.

Definition is_finite (x : float) : bool :=
  match x with S754_zero _ | S754_finite _ _ _ => true | _ => false end.

(** The literal [0.0]. *)
Definition zero : float := S754_zero false.

(** The literal [1.1]: the double nearest to 11/10,
    [0x3FF199999999999A]. *)
Definition lit_1_1 : float := S754_finite false 4953959590107546 (-52).

End Float.

Abbreviation float := Float.float.

(** ** Exceptions, outcomes and the interpreter monad *)

Inductive exn : Type :=
| ZeroDivisionError
| OverflowError.

(** [OutOfFuel] is the model's stand-in for a loop that has not finished
    within the given number of tests of its condition.  [Stuck] marks an
    access to a reference that holds no object of the expected class,
    which no Python program can perform on a reference it created. *)
Inductive outcome (A : Type) : Type :=
| Done (a : A)
| Raised (e : exn)
| OutOfFuel
| Stuck.

Arguments Done {A} a.
Arguments Raised {A} e.
Arguments OutOfFuel {A}.
Arguments Stuck {A}.

Definition loc : Type := positive.

(** [class Obj] has the single attribute [val], set in [__init__]. *)
Record Obj : Type := mkObj { val : Z }.

Inductive object : Type :=
| Instance (o : Obj)
| PyList (items : list Z).

Record world : Type := mkWorld {
  clock : nat -> float;
  ticks : nat;
  stdout : list string;
  heap : gmap loc object;
  next_loc : loc
}.

Definition M (A : Type) : Type := world -> outcome A * world.

Definition ret {A : Type} (a : A) : M A := fun w => (Done a, w).

Definition bind {A B : Type} (m : M A) (k : A -> M B) : M B :=
  fun w =>
    match m w with
    | (Done a, w') => k a w'
    | (Raised e, w') => (Raised e, w')
    | (OutOfFuel, w') => (OutOfFuel, w')
    | (Stuck, w') => (Stuck, w')
    end.

Definition raise {A : Type} (e : exn) : M A := fun w => (Raised e, w).

Notation "'let*' x ':=' m 'in' k" := (bind m (fun x => k))
  (at level 10, x pattern, m at level 99, k at level 200).
Notation "m ';;' k" := (bind m (fun _ => k))
  (at level 100, k at level 200, right associativity).

(** ** The primitives the script calls *)

(** [print(s)]: one more line on standard output. *)
Definition print (s : string) : M unit :=
  fun w => (Done tt,
            mkWorld (clock w) (ticks w) (stdout w ++ [s])%list (heap w) (next_loc w)).

(** [time.time()]: the next reading of the clock. *)
Definition time_time : M float :=
  fun w => (Done (clock w (ticks w)),
            mkWorld (clock w) (S (ticks w)) (stdout w) (heap w) (next_loc w)).

Definition alloc (o : object) : M loc :=
  fun w => (Done (next_loc w),
            mkWorld (clock w) (ticks w) (stdout w)
                    (<[next_loc w := o]> (heap w)) (Pos.succ (next_loc w))).

(** [Obj()]: a new instance, initialised by [__init__]. *)
Definition Obj_new : M loc := alloc (Instance (mkObj 0)).

(** [[]]: a new empty list. *)
Definition list_new : M loc := alloc (PyList []).

(** [o.val = v] *)
Definition set_val (o : loc) (v : Z) : M unit :=
  fun w =>
    match heap w !! o with
    | Some (Instance _) =>
        (Done tt, mkWorld (clock w) (ticks w) (stdout w)
                          (<[o := Instance (mkObj v)]> (heap w)) (next_loc w))
    | _ => (Stuck, w)
    end.

(** [o.val] *)
Definition get_val (o : loc) : M Z :=
  fun w =>
    match heap w !! o with
    | Some (Instance ob) => (Done (val ob), w)
    | _ => (Stuck, w)
    end.

(** [arr.append(v)] *)
Definition list_append (arr : loc) (v : Z) : M unit :=
  fun w =>
    match heap w !! arr with
    | Some (PyList items) =>
        (Done tt, mkWorld (clock w) (ticks w) (stdout w)
                          (<[arr := PyList (items ++ [v])%list]> (heap w)) (next_loc w))
    | _ => (Stuck, w)
    end.

(** [a - b] on floats never raises. *)
Definition float_sub (a b : float) : float := Float.sub a b.

(** [a / b] on floats: the interpreter tests the divisor against zero
    first and raises; otherwise the quotient is the hardware's, overflow
    to infinity and NaN included. *)
Definition float_truediv (a b : float) : M float :=
  if Float.is_zero b then raise ZeroDivisionError
  else ret (Float.ieee_div a b).

(** [n / b] with [n] an [int] and [b] a [float]: [n] is converted first,
    and an [int] beyond the range of [float] raises. *)
Definition int_to_float (n : Z) : M float :=
  match Float.of_int n with
  | S754_infinity _ => raise OverflowError
  | x => ret x
  end.

Definition int_truediv_float (n : Z) (b : float) : M float :=
  let* a := int_to_float n in float_truediv a b.

(** [while cond: body], on the variables the loop assigns.  [fuel] bounds
    the number of times the condition is tested. *)
Definition while {L : Type} (fuel : N) (cond : L -> bool) (body : L -> M L)
  : L -> M L :=
  N.iter fuel
         (fun (continue : L -> M L) (l : L) =>
            if cond l then let* l' := body l in continue l' else ret l)
         (fun _ w => (OutOfFuel, w)).

(** ** Format specifications

    [f"{s:<15}"] and [f"{s:>15}"] on a [str] pad with spaces up to the
    width and never truncate. *)

Fixpoint spaces (n : nat) : string :=
  match n with
  | O => ""
  | S n' => String " " (spaces n')
  end.

Definition ljust (width : nat) (s : string) : string :=
  s ++ spaces (width - String.length s).

Definition rjust (width : nat) (s : string) : string :=
  spaces (width - String.length s) ++ s.

(** [f"{x:.pf}"] and [f"{x:,.pf}"] on a [float].  A finite [x] is
    [m * 2^e] exactly; the digits printed are those of the integer nearest
    to [|x| * 10^p], ties going to the even one, with the point [p] places
    from the right.  The sign of a negative zero is kept. *)

Definition round_half_even (num den : Z) : Z :=
  let q := num / den in
  let r := num mod den in
  match 2 * r ?= den with
  | Lt => q
  | Gt => q + 1
  | Eq => if Z.even q then q else q + 1
  end.

Definition scaled (p : nat) (m : positive) (e : Z) : Z :=
  if 0 <=? e then Z.pos m * 2 ^ e * 10 ^ Z.of_nat p
  else round_half_even (Z.pos m * 10 ^ Z.of_nat p) (2 ^ (- e)).

Definition digit_char (d : Z) : ascii := ascii_of_nat (48 + Z.to_nat d).

(** The decimal digits of a natural number, without leading zeros. *)
Definition int_digits (n : Z) : string :=
  NilZero.string_of_uint (N.to_uint (Z.to_N n)).

(** The last [p] decimal digits of [n]. *)
Fixpoint frac_digits (p : nat) (n : Z) : string :=
  match p with
  | O => ""
  | S p' => frac_digits p' (n / 10) ++ String (digit_char (n mod 10)) ""
  end.

(** The [,] option: a comma before every group of three digits, counted
    from the right. *)
Fixpoint group_thousands (ds : string) : string :=
  match ds with
  | "" => ""
  | String d rest =>
      String d
        (if (0 <? String.length rest)%nat && (String.length rest mod 3 =? 0)%nat
         then String "," (group_thousands rest)
         else group_thousands rest)
  end.

Definition sign_str (negative : bool) : string :=
  if negative then "-" else "".

Definition fixed_point (grouping : bool) (p : nat) (n : Z) : string :=
  let ip := int_digits (n / 10 ^ Z.of_nat p) in
  (if grouping then group_thousands ip else ip)
  ++ (match p with O => "" | S _ => "." ++ frac_digits p n end).

Definition format_float_f (grouping : bool) (p : nat) (x : float) : string :=
  match x with
  | S754_nan => "nan"
  | S754_infinity s => sign_str s ++ "inf"
  | S754_zero s => sign_str s ++ fixed_point grouping p 0
  | S754_finite s m e => sign_str s ++ fixed_point grouping p (scaled p m e)
  end.

(** ** The script *)

Definition rule : string :=
  "  -------------------------------------------------------------".

Definition print_header : M unit :=
  print rule ;;
  print ("  " ++ ljust 15 "Benchmark" ++ " | " ++ rjust 15 "Performance" ++ " | Time") ;;
  print rule.

Definition print_result (name : string) (ops sec : float) : M unit :=
  let ops_str := format_float_f true 2 ops in
  print ("  " ++ ljust 15 name ++ " | " ++ rjust 15 ops_str ++ " OPS/sec | "
         ++ format_float_f false 4 sec ++ "s").

(** *** [bench_int] *)

Definition int_limit : Z := 1000000000.

Definition int_cond (i : Z) : bool := i <? int_limit.

Definition int_body (i : Z) : M Z :=
  let i := i + 1 in
  ret i.

Definition bench_int (fuel : N) : M unit :=
  let limit := int_limit in
  let* start := time_time in
  let i := 0 in
  let* i := while fuel int_cond int_body i in
  let* end_ := time_time in
  let sec := float_sub end_ start in
  let* ops := int_truediv_float limit sec in
  print_result "Integer Add" ops sec.

(** *** [bench_double] *)

Definition double_limit : Z := 100000000.

Definition double_cond (l : float * Z) : bool :=
  let '(_, i) := l in i <? double_limit.

Definition double_body (l : float * Z) : M (float * Z) :=
  let '(val, i) := l in
  let val := Float.add val Float.lit_1_1 in
  let i := i + 1 in
  ret (val, i).

Definition bench_double (fuel : N) : M unit :=
  let limit := double_limit in
  let val := Float.zero in
  let* start := time_time in
  let i := 0 in
  let* (val, i) := while fuel double_cond double_body (val, i) in
  let* end_ := time_time in
  let sec := float_sub end_ start in
  let* ops := int_truediv_float limit sec in
  print_result "Double Arith" ops sec.

(** *** [bench_string] *)

Definition string_limit : Z := 50000.

Definition string_cond (l : string * Z) : bool :=
  let '(_, i) := l in i <? string_limit.

Definition string_body (l : string * Z) : M (string * Z) :=
  let '(s, i) := l in
  let s := s ++ "a" in
  let i := i + 1 in
  ret (s, i).

Definition bench_string (fuel : N) : M unit :=
  let limit := string_limit in
  let* start := time_time in
  let s := "" in
  let i := 0 in
  let* (s, i) := while fuel string_cond string_body (s, i) in
  let* end_ := time_time in
  let sec := float_sub end_ start in
  let* ops := int_truediv_float limit sec in
  print_result "String Concat" ops sec.

(** *** [bench_array] *)

Definition array_limit : Z := 1000000.

Definition array_cond (i : Z) : bool := i <? array_limit.

Definition array_body (arr : loc) (i : Z) : M Z :=
  list_append arr i ;;
  let i := i + 1 in
  ret i.

Definition bench_array (fuel : N) : M unit :=
  let limit := array_limit in
  let* start := time_time in
  let* arr := list_new in
  let i := 0 in
  let* i := while fuel array_cond (array_body arr) i in
  let* end_ := time_time in
  let sec := float_sub end_ start in
  let* ops := int_truediv_float limit sec in
  print_result "Array Push" ops sec.

(** *** [bench_struct]

    [x] is unbound until the first iteration assigns it. *)

Definition struct_limit : Z := 50000000.

Definition struct_cond (l : option Z * Z) : bool :=
  let '(_, i) := l in i <? struct_limit.

Definition struct_body (o : loc) (l : option Z * Z) : M (option Z * Z) :=
  let '(_, i) := l in
  set_val o i ;;
  let* x := get_val o in
  let i := i + 1 in
  ret (Some x, i).

Definition bench_struct (fuel : N) : M unit :=
  let limit := struct_limit in
  let* o := Obj_new in
  let* start := time_time in
  let i := 0 in
  let* (x, i) := while fuel struct_cond (struct_body o) (None, i) in
  let* end_ := time_time in
  let sec := float_sub end_ start in
  let* ops := int_truediv_float limit sec in
  print_result "Struct Access" ops sec.

(** *** The entry point *)

Definition main (fuel : N) : M unit :=
  print ">>> Python 3 Benchmark Suite <<<" ;;
  print_header ;;
  bench_int fuel ;;
  bench_double fuel ;;
  bench_string fuel ;;
  bench_array fuel ;;
  bench_struct fuel ;;
  print rule ;;
  print "".

(** A world in which nothing has happened yet. *)
Definition initial_world (clk : nat -> float) : world :=
  mkWorld clk 0 [] ∅ 1%positive.

(** * The vocabulary of the statements

    Definitions that the lemmas and the theorems below are stated with. *)

(** ** Loops and the states they go through *)

(** [n] iterations of a loop body, one after the other. *)
Fixpoint iterate {L : Type} (n : nat) (body : L -> M L) (l : L) : M L :=
  match n with
  | O => ret l
  | S n' => let* l' := body l in iterate n' body l'
  end.

(** The loop started with variables [l0] in world [w0] performs exactly
    [n] iterations and exits with variables [ln] in world [wn]: [n + 1]
    tests of the condition are enough for it and [n] are not. *)
Definition loop_runs {L : Type} (cond : L -> bool) (body : L -> M L)
    (l0 : L) (w0 : world) (n : nat) (ln : L) (wn : world) : Prop :=
  (forall fuel : N, (N.of_nat n < fuel)%N ->
                    while fuel cond body l0 w0 = (Done ln, wn))
  /\ (forall fuel : N, (fuel <= N.of_nat n)%N ->
                       fst (while fuel cond body l0 w0) = OutOfFuel)
  /\ iterate n body l0 w0 = (Done ln, wn)
  /\ cond ln = false.

Definition set_heap (h : gmap loc object) (w : world) : world :=
  mkWorld (clock w) (ticks w) (stdout w) h (next_loc w).

(** [0, 1, ..., k - 1] *)
Definition upto (k : nat) : list Z := map Z.of_nat (seq 0 k).

Definition double_state (k : nat) : float * Z :=
  (Nat.iter k (fun v => Float.add v Float.lit_1_1) Float.zero, Z.of_nat k).

Definition string_state (k : nat) : string * Z :=
  (Nat.iter k (fun s => s ++ "a") "", Z.of_nat k).

Definition struct_state (k : nat) : option Z * Z :=
  (match k with O => None | S j => Some (Z.of_nat j) end, Z.of_nat k).

(** The field of the object after [k] iterations. *)
Definition struct_field (k : nat) : Z :=
  match k with O => 0 | S j => Z.of_nat j end.

(** The worlds the two loops that write to the store go through. *)
Definition array_world (arr : loc) (h : gmap loc object) (w : world)
    (k : nat) : world :=
  set_heap (<[arr := PyList (upto k)]> h) w.

Definition struct_world (o : loc) (h : gmap loc object) (w : world)
    (k : nat) : world :=
  set_heap (<[o := Instance (mkObj (struct_field k))]> h) w.

(** ** Worlds and rows *)

(** What a benchmark measures in world [w]: the second of its two clock
    readings minus the first. *)
Definition elapsed (w : world) : float :=
  float_sub (clock w (S (ticks w))) (clock w (ticks w)).

(** The world once both readings have been taken. *)
Definition after_timing (w : world) : world :=
  mkWorld (clock w) (S (S (ticks w))) (stdout w) (heap w) (next_loc w).

(** The world in which the next free reference holds [o]. *)
Definition allocated (o : object) (w : world) : world :=
  mkWorld (clock w) (ticks w) (stdout w)
          (<[next_loc w := o]> (heap w)) (Pos.succ (next_loc w)).

(** The text of the row that [print_result] prints. *)
Definition row (name : string) (ops sec : float) : string :=
  "  " ++ ljust 15 name ++ " | " ++ rjust 15 (format_float_f true 2 ops)
  ++ " OPS/sec | " ++ format_float_f false 4 sec ++ "s".

Definition printed (line : string) (w : world) : world :=
  mkWorld (clock w) (ticks w) (stdout w ++ [line])%list (heap w) (next_loc w).

(** The last two statements of every benchmark. *)
Definition report (name : string) (limit : Z) (sec : float) : M unit :=
  let* ops := int_truediv_float limit sec in
  print_result name ops sec.

Definition fits_float (n : Z) : bool :=
  match Float.of_int n with S754_infinity _ => false | _ => true end.

(** The value a benchmark hands to [print_result]. *)
Definition throughput (limit : Z) (sec : float) : float :=
  Float.ieee_div (Float.of_int limit) sec.

(** The objects a benchmark leaves in the store. *)
Definition array_store (w : world) : world :=
  allocated (PyList (upto (Z.to_nat array_limit))) w.

Definition struct_store (w : world) : world :=
  allocated (Instance (mkObj (struct_field (Z.to_nat struct_limit)))) w.

Definition title : string := ">>> Python 3 Benchmark Suite <<<".

Definition header_line : string :=
  "  " ++ ljust 15 "Benchmark" ++ " | " ++ rjust 15 "Performance" ++ " | Time".

Definition preamble : list string := [title; rule; header_line; rule].

(** The time the [k]-th benchmark of a run started in [w] measures:
    readings [2k] and [2k + 1] from [w] on. *)
Definition sec_of (w : world) (k : nat) : float :=
  float_sub (clock w (2 * k + 1 + ticks w)%nat) (clock w (2 * k + ticks w)%nat).

Definition data_row (w : world) (k : nat) (name : string) (limit : Z) : string :=
  row name (throughput limit (sec_of w k)) (sec_of w k).

Definition data_rows (w : world) : list string :=
  [ data_row w 0 "Integer Add" int_limit;
    data_row w 1 "Double Arith" double_limit;
    data_row w 2 "String Concat" string_limit;
    data_row w 3 "Array Push" array_limit;
    data_row w 4 "Struct Access" struct_limit ].

(** ** Reading a printed report back

    The functions below take a printed line apart again: the columns
    between the pipes, the label in the first column, the shape of the
    line with its numbers left out. *)

Fixpoint string_forall (P : ascii -> bool) (s : string) : bool :=
  match s with
  | "" => true
  | String c s' => P c && string_forall P s'
  end.

Definition is_digit (c : ascii) : bool :=
  ((48 <=? nat_of_ascii c)%nat && (nat_of_ascii c <=? 57)%nat)%bool.

Definition all_digits (s : string) : bool := string_forall is_digit s.

(** The characters a formatted float is made of. *)
Definition is_numeric (c : ascii) : bool :=
  is_digit c
  || (c =? ",")%char || (c =? ".")%char || (c =? "-")%char
  || (c =? "i")%char || (c =? "n")%char || (c =? "f")%char || (c =? "a")%char.

Definition lacks (c : ascii) (s : string) : bool :=
  string_forall (fun a => negb (a =? c)%char) s.

(** The fields of [s] between the occurrences of [sep]. *)
Fixpoint split_on (sep : ascii) (s : string) : list string :=
  match s with
  | "" => [""]
  | String c s' =>
      if (c =? sep)%char then "" :: split_on sep s'
      else match split_on sep s' with
           | f :: fs => String c f :: fs
           | [] => [String c ""]
           end
  end.

Fixpoint lstrip (s : string) : string :=
  match s with
  | String " " s' => lstrip s'
  | _ => s
  end.

Fixpoint rstrip (s : string) : string :=
  match s with
  | "" => ""
  | String c s' =>
      match rstrip s' with
      | "" => if (c =? " ")%char then "" else String c ""
      | r => String c r
      end
  end.

Definition strip (s : string) : string := lstrip (rstrip s).

Fixpoint ends_with (suffix s : string) : bool :=
  if (s =? suffix)%string then true
  else match s with
       | "" => false
       | String _ s' => ends_with suffix s'
       end.

(** The words of a line, runs of spaces left out. *)
Definition words (s : string) : list string :=
  List.filter (fun f => negb (f =? "")%string) (split_on " " s).

(** A data row is a line of three columns whose second ends in the unit
    [OPS/sec] and whose third ends in [s]; its shape keeps the label and
    the width of the label column and forgets the numbers.  Any other
    line is its own shape. *)
Inductive line_shape : Type :=
| DataRow (label : string) (label_column : nat)
| Verbatim (text : string).

Definition shape_of (line : string) : line_shape :=
  match split_on "|" line with
  | [c1; c2; c3] =>
      if ends_with " OPS/sec " c2 && ends_with "s" c3
      then DataRow (strip c1) (String.length c1)
      else Verbatim line
  | _ => Verbatim line
  end.

Definition is_data_row (line : string) : bool :=
  match shape_of line with DataRow _ _ => true | Verbatim _ => false end.

Definition label_of (line : string) : string :=
  match shape_of line with DataRow l _ => l | Verbatim t => t end.


Definition data_rows_of (report : list string) : list string :=
  List.filter is_data_row report.

(** ** The shape of a printed number *)





(** ** Example runs *)

(** A clock that gives the listed readings, in seconds. *)
Definition clock_of (readings : list Z) : nat -> float :=
  fun n => Float.of_int (nth n readings 0).

Definition plenty : N := 2000000000.

(** Elapsed times of 50, 5, 1, 2 and 2 seconds. *)
Definition advancing_world : world :=
  initial_world (clock_of [100; 150; 150; 155; 155; 156; 156; 158; 158; 160]).


(** The first benchmark reads the same time twice. *)
Definition frozen_start_world : world :=
  initial_world (clock_of [100; 100; 150; 155; 155; 156; 156; 158; 158; 160]).

(** The third benchmark reads the same time twice. *)
Definition frozen_third_world : world :=
  initial_world (clock_of [100; 150; 150; 155; 155; 155; 156; 158; 158; 160]).

(** The integer a float stands for, when it is one. *)
Definition exact_int (x : float) : option Z :=
  match x with
  | S754_zero _ => Some 0
  | S754_finite s m e =>
      if 0 <=? e then Some (cond_Zopp s (Z.pos m * 2 ^ e))
      else if Z.pos m mod 2 ^ (- e) =? 0
           then Some (cond_Zopp s (Z.pos m / 2 ^ (- e)))
           else None
  | _ => None
  end.



(** [n] dashes. *)
Fixpoint dashes (n : nat) : string :=
  match n with
  | O => ""
  | S n' => String "-" (dashes n')
  end.



(** ** Termination *)

(** A computation that comes to an end in [w]: it returns or it raises. *)
Definition terminates {A : Type} (m : M A) (w : world) : Prop :=
  match fst (m w) with
  | Done _ | Raised _ => True
  | OutOfFuel | Stuck => False
  end.

(** A loop that counts up to [limit]: its counter starts at 0, the loop
    goes on exactly while the counter is below [limit], the iteration
    entered with the counter at [k] leaves it at [k + 1], and the loop
    exits after [limit] iterations with the counter at [limit]. *)
Definition counts_up {L : Type} (counter : L -> Z)
    (cond : L -> bool) (body : L -> M L) (limit : Z)
    (l0 : L) (w0 : world) : Prop :=
  counter l0 = 0
  /\ (forall l : L, cond l = (counter l <? limit))
  /\ (forall k : Z, 0 <= k < limit ->
        exists (l l' : L) (wk wk' : world),
          iterate (Z.to_nat k) body l0 w0 = (Done l, wk)
          /\ counter l = k
          /\ body l wk = (Done l', wk')
          /\ counter l' = k + 1)
  /\ exists (ln : L) (wn : world),
       loop_runs cond body l0 w0 (Z.to_nat limit) ln wn
       /\ counter ln = limit.





(** ** Further vocabulary *)

(** The first benchmark of a run started in [w] that measures zero, [5]
    when none does. *)
Definition first_zero (w : world) : nat :=
  if Float.is_zero (sec_of w 0) then 0
  else if Float.is_zero (sec_of w 1) then 1
  else if Float.is_zero (sec_of w 2) then 2
  else if Float.is_zero (sec_of w 3) then 3
  else if Float.is_zero (sec_of w 4) then 4
  else 5.

(** [s] without the occurrences of [c]. *)
Fixpoint remove_char (c : ascii) (s : string) : string :=
  match s with
  | "" => ""
  | String a s' =>
      if (a =? c)%char then remove_char c s' else String a (remove_char c s')
  end.

(** The sign bit of a float; NaN is printed without a sign. *)
Definition sign_bit (x : float) : bool :=
  match x with
  | S754_zero s | S754_infinity s | S754_finite s _ _ => s
  | S754_nan => false
  end.

(** The outcome of a benchmark that measures [sec]. *)
Definition outcome_for (sec : float) : outcome unit :=
  if Float.is_zero sec then Raised ZeroDivisionError else Done tt.

(** The store and the next free reference once the first [k] benchmarks
    of a run started in [w] have taken their readings: the list of Array
    Push is there from the fourth on, the object of Struct Access from
    the fifth on. *)
Definition store_after (w : world) (k : nat) : world :=
  match k with
  | 0%nat | 1%nat | 2%nat | 3%nat => w
  | 4%nat => array_store w
  | _ => struct_store (array_store w)
  end.

(** The iteration counts of the five benchmarks, in the order of the
    run. *)
Definition limits : list Z :=
  [int_limit; double_limit; string_limit; array_limit; struct_limit].

(** A value [time.time()] can return: a finite binary64 number, in the
    canonical form of the format. *)
Definition is_double (x : float) : bool :=
  valid_binary Float.prec Float.emax x && Float.is_finite x.

(** * Reasoning about the embedding *)

(** ** Loops *)

Section WhileTheory.

Context {L : Type} (cond : L -> bool) (body : L -> M L).

Lemma while_zero (l : L) (w : world) :
  while 0 cond body l w = (OutOfFuel, w).
Proof. reflexivity. Qed.

Lemma while_succ (fuel : N) (l : L) :
  while (N.succ fuel) cond body l =
  if cond l then let* l' := body l in while fuel cond body l' else ret l.
Proof. unfold while. rewrite N.iter_succ. reflexivity. Qed.

(** A run of the loop given by the variables [st k] and the world
    [wd k] it has reached after [k] iterations: the condition holds
    before each of the first [n] iterations and fails after them. *)
Variables (st : nat -> L) (wd : nat -> world) (n : nat).

Hypothesis run_step : forall k : nat,
    (k < n)%nat ->
    cond (st k) = true /\ body (st k) (wd k) = (Done (st (S k)), wd (S k)).

Hypothesis run_exit : cond (st n) = false.

Lemma while_run_from (m : nat) :
  forall (k : nat) (fuel : N),
    (k + m = n)%nat -> (N.of_nat m < fuel)%N ->
    while fuel cond body (st k) (wd k) = (Done (st n), wd n).
Proof.
  induction m as [|m IH]; intros k fuel Hk Hfuel.
  - replace k with n by lia.
    rewrite <- (N.succ_pred fuel) by lia.
    rewrite while_succ, run_exit. reflexivity.
  - rewrite <- (N.succ_pred fuel) by lia.
    rewrite while_succ.
    destruct (run_step k) as [Hc Hb]; [lia|].
    rewrite Hc. unfold bind. rewrite Hb.
    apply IH; lia.
Qed.

(** With more fuel than iterations the loop finishes. *)
Lemma while_run (fuel : N) :
  (N.of_nat n < fuel)%N ->
  while fuel cond body (st 0%nat) (wd 0%nat) = (Done (st n), wd n).
Proof. intros Hfuel. apply (while_run_from n); [lia|assumption]. Qed.

Lemma while_starved_from (fuel : nat) :
  forall k : nat,
    (k + fuel <= n)%nat ->
    fst (while (N.of_nat fuel) cond body (st k) (wd k)) = OutOfFuel.
Proof.
  induction fuel as [|fuel IH]; intros k Hk.
  - reflexivity.
  - rewrite Nat2N.inj_succ, while_succ.
    destruct (run_step k) as [Hc Hb]; [lia|].
    rewrite Hc. unfold bind. rewrite Hb.
    apply IH. lia.
Qed.

(** It does not finish sooner: the condition is tested [n + 1] times. *)
Lemma while_starved (fuel : N) :
  (fuel <= N.of_nat n)%N ->
  fst (while fuel cond body (st 0%nat) (wd 0%nat)) = OutOfFuel.
Proof.
  intros Hfuel. rewrite <- (N2Nat.id fuel).
  apply while_starved_from. lia.
Qed.

Lemma iterate_from (m : nat) :
  forall k : nat,
    (k + m <= n)%nat ->
    iterate m body (st k) (wd k) = (Done (st (k + m)%nat), wd (k + m)%nat).
Proof.
  induction m as [|m IH]; intros k Hk.
  - rewrite Nat.add_0_r. reflexivity.
  - cbn [iterate]. destruct (run_step k) as [_ Hb]; [lia|].
    unfold bind. rewrite Hb, IH by lia.
    replace (S k + m)%nat with (k + S m)%nat by lia. reflexivity.
Qed.

(** The variables after [k] iterations are [st k]. *)
Lemma iterate_run (k : nat) :
  (k <= n)%nat ->
  iterate k body (st 0%nat) (wd 0%nat) = (Done (st k), wd k).
Proof. intros Hk. apply (iterate_from k 0%nat). lia. Qed.

Lemma counting_loop :
  loop_runs cond body (st 0%nat) (wd 0%nat) n (st n) (wd n).
Proof.
  repeat split.
  - apply while_run.
  - apply while_starved.
  - apply iterate_run. lia.
  - apply run_exit.
Qed.

End WhileTheory.

(** ** The five loops

    Each loop is described by the values of its variables after [k]
    iterations; [counting_loop] then gives the state in which it exits. *)

Lemma upto_S (k : nat) : upto (S k) = (upto k ++ [Z.of_nat k])%list.
Proof. unfold upto. rewrite seq_S, map_app. reflexivity. Qed.

Ltac of_nat_succ := rewrite ?Nat2Z.inj_succ; unfold Z.succ.

Lemma int_steps (w : world) (k : nat) :
  (k < Z.to_nat int_limit)%nat ->
  int_cond (Z.of_nat k) = true
  /\ int_body (Z.of_nat k) w = (Done (Z.of_nat (S k)), w).
Proof.
  intros Hk. unfold int_cond, int_body, ret. split.
  - apply Z.ltb_lt. unfold int_limit in *. lia.
  - of_nat_succ. reflexivity.
Qed.

Lemma int_counting (w : world) :
  loop_runs int_cond int_body 0 w (Z.to_nat int_limit) int_limit w.
Proof.
  pose proof (counting_loop int_cond int_body Z.of_nat (fun _ => w)
                (Z.to_nat int_limit) (int_steps w)) as Hrun.
  rewrite Z2Nat.id in Hrun by (unfold int_limit; lia).
  apply Hrun. apply Z.ltb_irrefl.
Qed.

Lemma double_steps (w : world) (k : nat) :
  (k < Z.to_nat double_limit)%nat ->
  double_cond (double_state k) = true
  /\ double_body (double_state k) w = (Done (double_state (S k)), w).
Proof.
  intros Hk. unfold double_cond, double_body, double_state, ret. split.
  - apply Z.ltb_lt. unfold double_limit in *. lia.
  - of_nat_succ. reflexivity.
Qed.

Lemma double_counting (w : world) :
  loop_runs double_cond double_body (Float.zero, 0) w
            (Z.to_nat double_limit) (double_state (Z.to_nat double_limit)) w.
Proof.
  apply (counting_loop double_cond double_body double_state (fun _ => w)).
  - apply double_steps.
  - unfold double_cond, double_state.
    rewrite Z2Nat.id by (unfold double_limit; lia). apply Z.ltb_irrefl.
Qed.

Lemma string_steps (w : world) (k : nat) :
  (k < Z.to_nat string_limit)%nat ->
  string_cond (string_state k) = true
  /\ string_body (string_state k) w = (Done (string_state (S k)), w).
Proof.
  intros Hk. unfold string_cond, string_body, string_state, ret. split.
  - apply Z.ltb_lt. unfold string_limit in *. lia.
  - of_nat_succ. reflexivity.
Qed.

Lemma string_counting (w : world) :
  loop_runs string_cond string_body ("", 0) w
            (Z.to_nat string_limit) (string_state (Z.to_nat string_limit)) w.
Proof.
  apply (counting_loop string_cond string_body string_state (fun _ => w)).
  - apply string_steps.
  - unfold string_cond, string_state.
    rewrite Z2Nat.id by (unfold string_limit; lia). apply Z.ltb_irrefl.
Qed.

Lemma array_body_step (arr : loc) (h : gmap loc object) (w : world) (k : nat) :
  array_body arr (Z.of_nat k) (array_world arr h w k) =
  (Done (Z.of_nat (S k)), array_world arr h w (S k)).
Proof.
  unfold array_world, array_body, bind, list_append, ret, set_heap. simpl.
  rewrite lookup_insert_eq, insert_insert_eq, upto_S.
  of_nat_succ. reflexivity.
Qed.

Lemma array_steps (arr : loc) (h : gmap loc object) (w : world) (k : nat) :
  (k < Z.to_nat array_limit)%nat ->
  array_cond (Z.of_nat k) = true
  /\ array_body arr (Z.of_nat k) (array_world arr h w k) =
     (Done (Z.of_nat (S k)), array_world arr h w (S k)).
Proof.
  intros Hk. split.
  - apply Z.ltb_lt. unfold array_limit in *. lia.
  - apply array_body_step.
Qed.

Lemma array_counting (arr : loc) (h : gmap loc object) (w : world) :
  loop_runs array_cond (array_body arr) 0 (array_world arr h w 0)
            (Z.to_nat array_limit) array_limit
            (array_world arr h w (Z.to_nat array_limit)).
Proof.
  pose proof (counting_loop array_cond (array_body arr) Z.of_nat
                (array_world arr h w) (Z.to_nat array_limit)
                (array_steps arr h w)) as Hrun.
  rewrite Z2Nat.id in Hrun by (unfold array_limit; lia).
  apply Hrun. apply Z.ltb_irrefl.
Qed.

Lemma struct_body_step (o : loc) (h : gmap loc object) (w : world) (k : nat) :
  struct_body o (struct_state k) (struct_world o h w k) =
  (Done (struct_state (S k)), struct_world o h w (S k)).
Proof.
  unfold struct_world, struct_body, struct_state, bind, set_val, get_val, ret,
    set_heap.
  simpl.
  rewrite lookup_insert_eq. simpl.
  rewrite lookup_insert_eq, insert_insert_eq. simpl.
  of_nat_succ. reflexivity.
Qed.

Lemma struct_steps (o : loc) (h : gmap loc object) (w : world) (k : nat) :
  (k < Z.to_nat struct_limit)%nat ->
  struct_cond (struct_state k) = true
  /\ struct_body o (struct_state k) (struct_world o h w k) =
     (Done (struct_state (S k)), struct_world o h w (S k)).
Proof.
  intros Hk. split.
  - unfold struct_cond, struct_state. apply Z.ltb_lt.
    unfold struct_limit in *. lia.
  - apply struct_body_step.
Qed.

Lemma struct_counting (o : loc) (h : gmap loc object) (w : world) :
  loop_runs struct_cond (struct_body o) (None, 0) (struct_world o h w 0)
            (Z.to_nat struct_limit) (struct_state (Z.to_nat struct_limit))
            (struct_world o h w (Z.to_nat struct_limit)).
Proof.
  apply (counting_loop struct_cond (struct_body o) struct_state
           (struct_world o h w)).
  - apply struct_steps.
  - unfold struct_cond, struct_state.
    rewrite Z2Nat.id by (unfold struct_limit; lia). apply Z.ltb_irrefl.
Qed.

(** The loops as the benchmark functions meet them. *)

Lemma int_loop (fuel : N) (w : world) :
  int_limit < Z.of_N fuel ->
  while fuel int_cond int_body 0 w = (Done int_limit, w).
Proof.
  intros Hfuel. destruct (int_counting w) as [Hrun _].
  apply Hrun. unfold int_limit in *. lia.
Qed.

Lemma double_loop (fuel : N) (w : world) :
  double_limit < Z.of_N fuel ->
  while fuel double_cond double_body (Float.zero, 0) w =
  (Done (double_state (Z.to_nat double_limit)), w).
Proof.
  intros Hfuel. destruct (double_counting w) as [Hrun _].
  apply Hrun. unfold double_limit in *. lia.
Qed.

Lemma string_loop (fuel : N) (w : world) :
  string_limit < Z.of_N fuel ->
  while fuel string_cond string_body ("", 0) w =
  (Done (string_state (Z.to_nat string_limit)), w).
Proof.
  intros Hfuel. destruct (string_counting w) as [Hrun _].
  apply Hrun. unfold string_limit in *. lia.
Qed.

Lemma array_loop (fuel : N) (arr : loc) (h : gmap loc object) (w : world) :
  array_limit < Z.of_N fuel ->
  while fuel array_cond (array_body arr) 0 (set_heap (<[arr := PyList []]> h) w) =
  (Done array_limit,
   set_heap (<[arr := PyList (upto (Z.to_nat array_limit))]> h) w).
Proof.
  intros Hfuel. destruct (array_counting arr h w) as [Hrun _].
  apply Hrun. unfold array_limit in *. lia.
Qed.

Lemma struct_loop (fuel : N) (o : loc) (h : gmap loc object) (w : world) :
  struct_limit < Z.of_N fuel ->
  while fuel struct_cond (struct_body o) (None, 0)
        (set_heap (<[o := Instance (mkObj 0)]> h) w) =
  (Done (struct_state (Z.to_nat struct_limit)),
   set_heap (<[o := Instance (mkObj (struct_field (Z.to_nat struct_limit)))]> h) w).
Proof.
  intros Hfuel. destruct (struct_counting o h w) as [Hrun _].
  apply Hrun. unfold struct_limit in *. lia.
Qed.

(** ** The five benchmark functions *)


Lemma int_to_float_fits (n : Z) (w : world) :
  fits_float n = true -> int_to_float n w = (Done (Float.of_int n), w).
Proof.
  unfold fits_float, int_to_float.
  destruct (Float.of_int n); intros H; try reflexivity; discriminate.
Qed.

Lemma report_zero (name : string) (limit : Z) (sec : float) (w : world) :
  fits_float limit = true ->
  Float.is_zero sec = true ->
  report name limit sec w = (Raised ZeroDivisionError, w).
Proof.
  intros Hfit Hz. unfold report, int_truediv_float, bind.
  rewrite int_to_float_fits by assumption.
  unfold float_truediv. rewrite Hz. reflexivity.
Qed.

Lemma report_nonzero (name : string) (limit : Z) (sec : float) (w : world) :
  fits_float limit = true ->
  Float.is_zero sec = false ->
  report name limit sec w =
  print_result name (Float.ieee_div (Float.of_int limit) sec) sec w.
Proof.
  intros Hfit Hz. unfold report, int_truediv_float, bind.
  rewrite int_to_float_fits by assumption.
  unfold float_truediv. rewrite Hz. reflexivity.
Qed.

Ltac run_prims :=
  unfold time_time, Obj_new, list_new, alloc;
  cbn [clock ticks stdout heap next_loc].

Ltac run_prims_in H :=
  cbn [clock ticks stdout heap next_loc] in H.

Lemma bench_int_report (fuel : N) (w : world) :
  int_limit < Z.of_N fuel ->
  bench_int fuel w = report "Integer Add" int_limit (elapsed w) (after_timing w).
Proof.
  intros Hfuel. unfold bench_int, bind at 1 2. run_prims.
  rewrite int_loop by assumption. reflexivity.
Qed.

Lemma bench_double_report (fuel : N) (w : world) :
  double_limit < Z.of_N fuel ->
  bench_double fuel w =
  report "Double Arith" double_limit (elapsed w) (after_timing w).
Proof.
  intros Hfuel. unfold bench_double, bind at 1 2. run_prims.
  rewrite double_loop by assumption. reflexivity.
Qed.

Lemma bench_string_report (fuel : N) (w : world) :
  string_limit < Z.of_N fuel ->
  bench_string fuel w =
  report "String Concat" string_limit (elapsed w) (after_timing w).
Proof.
  intros Hfuel. unfold bench_string, bind at 1 2. run_prims.
  rewrite string_loop by assumption. reflexivity.
Qed.

Lemma bench_array_report (fuel : N) (w : world) :
  array_limit < Z.of_N fuel ->
  bench_array fuel w =
  report "Array Push" array_limit (elapsed w)
         (after_timing (allocated (PyList (upto (Z.to_nat array_limit))) w)).
Proof.
  intros Hfuel. unfold bench_array, bind at 1 2 3. run_prims.
  pose proof (array_loop fuel (next_loc w) (heap w)
                (mkWorld (clock w) (S (ticks w)) (stdout w) (heap w)
                         (Pos.succ (next_loc w))) Hfuel) as Hloop.
  unfold set_heap in Hloop. run_prims_in Hloop. rewrite Hloop. reflexivity.
Qed.

Lemma bench_struct_report (fuel : N) (w : world) :
  struct_limit < Z.of_N fuel ->
  bench_struct fuel w =
  report "Struct Access" struct_limit (elapsed w)
         (after_timing
            (allocated (Instance (mkObj (struct_field (Z.to_nat struct_limit)))) w)).
Proof.
  intros Hfuel. unfold bench_struct, bind at 1 2 3. run_prims.
  pose proof (struct_loop fuel (next_loc w) (heap w)
                (mkWorld (clock w) (S (ticks w)) (stdout w) (heap w)
                         (Pos.succ (next_loc w))) Hfuel) as Hloop.
  unfold set_heap in Hloop. run_prims_in Hloop. rewrite Hloop. reflexivity.
Qed.

Lemma bind_done {A B : Type} (m : M A) (k : A -> M B) (w w' : world) (a : A) :
  m w = (Done a, w') -> bind m k w = k a w'.
Proof. intros H. unfold bind. rewrite H. reflexivity. Qed.

Lemma bind_raised {A B : Type} (m : M A) (k : A -> M B) (w w' : world) (e : exn) :
  m w = (Raised e, w') -> bind m k w = (Raised e, w').
Proof. intros H. unfold bind. rewrite H. reflexivity. Qed.

Ltac enough_fuel :=
  first [ assumption
        | unfold int_limit, double_limit, string_limit, array_limit,
            struct_limit in *; lia ].

Section Benchmarks.

Variables (fuel : N) (w : world).
Hypothesis enough_fuel : int_limit < Z.of_N fuel.

Lemma bench_int_done :
  Float.is_zero (elapsed w) = false ->
  bench_int fuel w =
  (Done tt, printed (row "Integer Add" (throughput int_limit (elapsed w)) (elapsed w))
                    (after_timing w)).
Proof.
  intros Hz. rewrite bench_int_report by enough_fuel.
  rewrite report_nonzero by (reflexivity || assumption). reflexivity.
Qed.

Lemma bench_int_raises :
  Float.is_zero (elapsed w) = true ->
  bench_int fuel w = (Raised ZeroDivisionError, after_timing w).
Proof.
  intros Hz. rewrite bench_int_report by enough_fuel.
  apply report_zero; [reflexivity | assumption].
Qed.

Lemma bench_double_done :
  Float.is_zero (elapsed w) = false ->
  bench_double fuel w =
  (Done tt, printed (row "Double Arith" (throughput double_limit (elapsed w)) (elapsed w))
                    (after_timing w)).
Proof.
  intros Hz. rewrite bench_double_report by enough_fuel.
  rewrite report_nonzero by (reflexivity || assumption). reflexivity.
Qed.

Lemma bench_double_raises :
  Float.is_zero (elapsed w) = true ->
  bench_double fuel w = (Raised ZeroDivisionError, after_timing w).
Proof.
  intros Hz. rewrite bench_double_report by enough_fuel.
  apply report_zero; [reflexivity | assumption].
Qed.

Lemma bench_string_done :
  Float.is_zero (elapsed w) = false ->
  bench_string fuel w =
  (Done tt, printed (row "String Concat" (throughput string_limit (elapsed w)) (elapsed w))
                    (after_timing w)).
Proof.
  intros Hz. rewrite bench_string_report by enough_fuel.
  rewrite report_nonzero by (reflexivity || assumption). reflexivity.
Qed.

Lemma bench_string_raises :
  Float.is_zero (elapsed w) = true ->
  bench_string fuel w = (Raised ZeroDivisionError, after_timing w).
Proof.
  intros Hz. rewrite bench_string_report by enough_fuel.
  apply report_zero; [reflexivity | assumption].
Qed.

Lemma bench_array_done :
  Float.is_zero (elapsed w) = false ->
  bench_array fuel w =
  (Done tt, printed (row "Array Push" (throughput array_limit (elapsed w)) (elapsed w))
                    (after_timing (array_store w))).
Proof.
  intros Hz. rewrite bench_array_report by enough_fuel.
  rewrite report_nonzero by (reflexivity || assumption). reflexivity.
Qed.

Lemma bench_array_raises :
  Float.is_zero (elapsed w) = true ->
  bench_array fuel w = (Raised ZeroDivisionError, after_timing (array_store w)).
Proof.
  intros Hz. rewrite bench_array_report by enough_fuel.
  apply report_zero; [reflexivity | assumption].
Qed.

Lemma bench_struct_done :
  Float.is_zero (elapsed w) = false ->
  bench_struct fuel w =
  (Done tt, printed (row "Struct Access" (throughput struct_limit (elapsed w)) (elapsed w))
                    (after_timing (struct_store w))).
Proof.
  intros Hz. rewrite bench_struct_report by enough_fuel.
  rewrite report_nonzero by (reflexivity || assumption). reflexivity.
Qed.

Lemma bench_struct_raises :
  Float.is_zero (elapsed w) = true ->
  bench_struct fuel w = (Raised ZeroDivisionError, after_timing (struct_store w)).
Proof.
  intros Hz. rewrite bench_struct_report by enough_fuel.
  apply report_zero; [reflexivity | assumption].
Qed.

End Benchmarks.

(** ** The whole run *)

Lemma print_header_lines (w : world) :
  print_header w = (Done tt, printed rule (printed header_line (printed rule w))).
Proof. reflexivity. Qed.

Lemma print_done (s : string) (w : world) : print s w = (Done tt, printed s w).
Proof. reflexivity. Qed.

Ltac world_fields :=
  cbn [clock ticks stdout heap next_loc printed after_timing allocated
       array_store struct_store].

Ltac step_done lem :=
  erewrite bind_done by (apply lem; assumption).

Ltac step_raised lem :=
  erewrite bind_raised by (apply lem; assumption).

Section Run.

Variables (fuel : N) (w : world).
Hypothesis enough_fuel : int_limit < Z.of_N fuel.

(** Every benchmark measures a non-zero time: the run completes and
    prints the full report. *)
Lemma main_completes :
  (forall k : nat, (k < 5)%nat -> Float.is_zero (sec_of w k) = false) ->
  exists w' : world,
    main fuel w = (Done tt, w')
    /\ stdout w' = (stdout w ++ preamble ++ data_rows w ++ [rule; ""])%list
    /\ clock w' = clock w
    /\ ticks w' = (10 + ticks w)%nat.
Proof.
  intros Hnz.
  pose proof (Hnz 0%nat ltac:(lia)) as H0.
  pose proof (Hnz 1%nat ltac:(lia)) as H1.
  pose proof (Hnz 2%nat ltac:(lia)) as H2.
  pose proof (Hnz 3%nat ltac:(lia)) as H3.
  pose proof (Hnz 4%nat ltac:(lia)) as H4.
  clear Hnz. eexists. split.
  - unfold main.
    rewrite (bind_done _ _ _ _ _ (print_done _ _)).
    rewrite (bind_done _ _ _ _ _ (print_header_lines _)).
    step_done bench_int_done.
    step_done bench_double_done.
    step_done bench_string_done.
    step_done bench_array_done.
    step_done bench_struct_done.
    rewrite (bind_done _ _ _ _ _ (print_done _ _)).
    apply print_done.
  - world_fields. repeat split.
    rewrite <- !app_assoc. reflexivity.
Qed.

(** The [k]-th benchmark is the first to measure zero: the division
    raises, nothing catches it, and the output stops after the rows of
    the benchmarks before it. *)
Lemma main_aborts (k : nat) :
  (k < 5)%nat ->
  (forall j : nat, (j < k)%nat -> Float.is_zero (sec_of w j) = false) ->
  Float.is_zero (sec_of w k) = true ->
  exists w' : world,
    main fuel w = (Raised ZeroDivisionError, w')
    /\ stdout w' = (stdout w ++ preamble ++ firstn k (data_rows w))%list
    /\ ticks w' = (2 * k + 2 + ticks w)%nat.
Proof.
  intros Hk Hnz Hz.
  destruct k as [|[|[|[|[|k]]]]]; try lia; clear Hk.
  - eexists. split.
    + unfold main.
      rewrite (bind_done _ _ _ _ _ (print_done _ _)).
      rewrite (bind_done _ _ _ _ _ (print_header_lines _)).
      step_raised bench_int_raises. reflexivity.
    + world_fields. split; [|reflexivity].
      rewrite <- !app_assoc. reflexivity.
  - pose proof (Hnz 0%nat ltac:(lia)) as H0.
    eexists. split.
    + unfold main.
      rewrite (bind_done _ _ _ _ _ (print_done _ _)).
      rewrite (bind_done _ _ _ _ _ (print_header_lines _)).
      step_done bench_int_done.
      step_raised bench_double_raises. reflexivity.
    + world_fields. split; [|reflexivity].
      rewrite <- !app_assoc. reflexivity.
  - pose proof (Hnz 0%nat ltac:(lia)) as H0.
    pose proof (Hnz 1%nat ltac:(lia)) as H1.
    eexists. split.
    + unfold main.
      rewrite (bind_done _ _ _ _ _ (print_done _ _)).
      rewrite (bind_done _ _ _ _ _ (print_header_lines _)).
      step_done bench_int_done.
      step_done bench_double_done.
      step_raised bench_string_raises. reflexivity.
    + world_fields. split; [|reflexivity].
      rewrite <- !app_assoc. reflexivity.
  - pose proof (Hnz 0%nat ltac:(lia)) as H0.
    pose proof (Hnz 1%nat ltac:(lia)) as H1.
    pose proof (Hnz 2%nat ltac:(lia)) as H2.
    eexists. split.
    + unfold main.
      rewrite (bind_done _ _ _ _ _ (print_done _ _)).
      rewrite (bind_done _ _ _ _ _ (print_header_lines _)).
      step_done bench_int_done.
      step_done bench_double_done.
      step_done bench_string_done.
      step_raised bench_array_raises. reflexivity.
    + world_fields. split; [|reflexivity].
      rewrite <- !app_assoc. reflexivity.
  - pose proof (Hnz 0%nat ltac:(lia)) as H0.
    pose proof (Hnz 1%nat ltac:(lia)) as H1.
    pose proof (Hnz 2%nat ltac:(lia)) as H2.
    pose proof (Hnz 3%nat ltac:(lia)) as H3.
    eexists. split.
    + unfold main.
      rewrite (bind_done _ _ _ _ _ (print_done _ _)).
      rewrite (bind_done _ _ _ _ _ (print_header_lines _)).
      step_done bench_int_done.
      step_done bench_double_done.
      step_done bench_string_done.
      step_done bench_array_done.
      step_raised bench_struct_raises. reflexivity.
    + world_fields. split; [|reflexivity].
      rewrite <- !app_assoc. reflexivity.
Qed.

End Run.

(** ** Strings *)

Lemma append_nil_l (b : string) : "" ++ b = b.
Proof. reflexivity. Qed.

Lemma append_cons (x : ascii) (a b : string) :
  String x a ++ b = String x (a ++ b).
Proof. reflexivity. Qed.

Ltac str_simpl := rewrite ?append_nil_l, ?append_cons; simpl.

Lemma append_assoc (a b c : string) : (a ++ b) ++ c = a ++ (b ++ c).
Proof. induction a as [|x a IH]; str_simpl; [reflexivity | now rewrite IH]. Qed.




Lemma string_forall_app (P : ascii -> bool) (a b : string) :
  string_forall P (a ++ b) = string_forall P a && string_forall P b.
Proof.
  induction a as [|x a IH]; str_simpl; [reflexivity|].
  rewrite IH. apply andb_assoc.
Qed.

Lemma string_forall_impl (P Q : ascii -> bool) (s : string) :
  (forall c : ascii, P c = true -> Q c = true) ->
  string_forall P s = true -> string_forall Q s = true.
Proof.
  intros HPQ. induction s as [|x s IH]; simpl; [reflexivity|].
  intros H. apply andb_true_iff in H as [Hx Hs].
  apply andb_true_iff. split; [apply HPQ, Hx | apply IH, Hs].
Qed.

Lemma string_forall_spaces (P : ascii -> bool) (n : nat) :
  P " "%char = true -> string_forall P (spaces n) = true.
Proof.
  intros HP. induction n as [|n IH]; simpl; [reflexivity|].
  rewrite HP, IH. reflexivity.
Qed.

Lemma split_on_lacks (sep : ascii) (a : string) :
  lacks sep a = true -> split_on sep a = [a].
Proof.
  induction a as [|x a IH]; simpl; [reflexivity|].
  intros H. apply andb_true_iff in H as [Hx Ha].
  apply negb_true_iff in Hx. rewrite Hx, (IH Ha). reflexivity.
Qed.

Lemma split_on_app (sep : ascii) (a b : string) :
  lacks sep a = true ->
  split_on sep (a ++ String sep b) = a :: split_on sep b.
Proof.
  induction a as [|x a IH]; str_simpl.
  - intros _. rewrite Ascii.eqb_refl. reflexivity.
  - intros H. apply andb_true_iff in H as [Hx Ha].
    apply negb_true_iff in Hx. rewrite Hx, (IH Ha). reflexivity.
Qed.

Lemma ends_with_app (suffix a : string) : ends_with suffix (a ++ suffix) = true.
Proof.
  induction a as [|x a IH]; str_simpl.
  - destruct suffix; simpl; rewrite ?Ascii.eqb_refl, ?String.eqb_refl;
      reflexivity.
  - rewrite IH. match goal with |- (if ?b then _ else _) = _ => now destruct b end.
Qed.

(** ** Digits *)

Lemma numeric_not_bar (c : ascii) :
  is_numeric c = true -> negb (c =? "|")%char = true.
Proof.
  destruct c as [[] [] [] [] [] [] [] []]; vm_compute; congruence.
Qed.

Lemma numeric_not_space (c : ascii) :
  is_numeric c = true -> negb (c =? " ")%char = true.
Proof.
  destruct c as [[] [] [] [] [] [] [] []]; vm_compute; congruence.
Qed.

Lemma digit_numeric (c : ascii) : is_digit c = true -> is_numeric c = true.
Proof. intros H. unfold is_numeric. rewrite H. reflexivity. Qed.

Lemma digit_not_comma (c : ascii) :
  is_digit c = true -> (c =? ",")%char = false.
Proof.
  destruct c as [[] [] [] [] [] [] [] []]; vm_compute; congruence.
Qed.

Lemma digit_char_digit (d : Z) : 0 <= d < 10 -> is_digit (digit_char d) = true.
Proof.
  intros Hd.
  assert (d = 0 \/ d = 1 \/ d = 2 \/ d = 3 \/ d = 4 \/ d = 5 \/ d = 6
          \/ d = 7 \/ d = 8 \/ d = 9) as Hcases by lia.
  repeat (destruct Hcases as [-> | Hcases]; [reflexivity|]).
  subst d. reflexivity.
Qed.


Lemma frac_digits_digits (p : nat) :
  forall n : Z, all_digits (frac_digits p n) = true.
Proof.
  unfold all_digits.
  induction p as [|p IH]; intros n; [reflexivity|].
  cbn [frac_digits]. rewrite string_forall_app, IH.
  cbn [string_forall andb].
  rewrite digit_char_digit by (apply Z.mod_pos_bound; lia). reflexivity.
Qed.

Lemma uint_digits (d : Decimal.uint) :
  all_digits (NilEmpty.string_of_uint d) = true.
Proof. induction d; simpl; try reflexivity; assumption. Qed.

Lemma int_digits_digits (n : Z) : all_digits (int_digits n) = true.
Proof.
  unfold int_digits, NilZero.string_of_uint.
  destruct (N.to_uint (Z.to_N n)); try reflexivity; apply uint_digits.
Qed.

Lemma int_digits_nonempty (n : Z) : int_digits n <> "".
Proof.
  unfold int_digits, NilZero.string_of_uint.
  destruct (N.to_uint (Z.to_N n)); simpl; discriminate.
Qed.

(** ** Thousands separators *)




Lemma group_thousands_cons (d : ascii) (rest : string) :
  group_thousands (String d rest) =
  String d (if (0 <? String.length rest)%nat && (String.length rest mod 3 =? 0)%nat
            then String "," (group_thousands rest)
            else group_thousands rest).
Proof. reflexivity. Qed.


Lemma group_thousands_numeric (ds : string) :
  all_digits ds = true -> string_forall is_numeric (group_thousands ds) = true.
Proof.
  unfold all_digits.
  induction ds as [|d rest IH]; [reflexivity|].
  cbn [string_forall]. intros H. apply andb_true_iff in H as [Hd Hrest].
  rewrite group_thousands_cons.
  destruct (_ && _); cbn [string_forall];
    rewrite (digit_numeric _ Hd), (IH Hrest); reflexivity.
Qed.

(** ** What [format_float_f] prints *)

Lemma fixed_point_numeric (grouping : bool) (p : nat) (n : Z) :
  string_forall is_numeric (fixed_point grouping p n) = true.
Proof.
  unfold fixed_point. rewrite string_forall_app.
  apply andb_true_iff. split.
  - destruct grouping.
    + apply group_thousands_numeric, int_digits_digits.
    + apply (string_forall_impl is_digit); [apply digit_numeric|].
      apply int_digits_digits.
  - destruct p as [|p]; [reflexivity|].
    rewrite string_forall_app. apply andb_true_iff. split; [reflexivity|].
    apply (string_forall_impl is_digit); [apply digit_numeric|].
    apply frac_digits_digits.
Qed.

Lemma format_float_f_numeric (grouping : bool) (p : nat) (x : float) :
  string_forall is_numeric (format_float_f grouping p x) = true.
Proof.
  destruct x as [s|s| |s m e]; unfold format_float_f.
  - rewrite string_forall_app, fixed_point_numeric. now destruct s.
  - now destruct s.
  - reflexivity.
  - rewrite string_forall_app, fixed_point_numeric. now destruct s.
Qed.

Lemma format_float_f_no_bar (grouping : bool) (p : nat) (x : float) :
  lacks "|" (format_float_f grouping p x) = true.
Proof.
  apply (string_forall_impl is_numeric); [apply numeric_not_bar|].
  apply format_float_f_numeric.
Qed.

Lemma format_float_f_no_space (grouping : bool) (p : nat) (x : float) :
  lacks " " (format_float_f grouping p x) = true.
Proof.
  apply (string_forall_impl is_numeric); [apply numeric_not_space|].
  apply format_float_f_numeric.
Qed.

(** ** The columns of a row *)

Lemma lacks_app (c : ascii) (a b : string) :
  lacks c (a ++ b) = lacks c a && lacks c b.
Proof. apply string_forall_app. Qed.

Lemma lacks_spaces (n : nat) : lacks "|" (spaces n) = true.
Proof. now apply string_forall_spaces. Qed.

Lemma row_columns (name : string) (ops sec : float) :
  row name ops sec =
  ("  " ++ ljust 15 name ++ " ")
  ++ String "|" (((" " ++ rjust 15 (format_float_f true 2 ops)) ++ " OPS/sec ")
                 ++ String "|" ((" " ++ format_float_f false 4 sec) ++ "s")).
Proof. unfold row. rewrite !append_assoc. reflexivity. Qed.

Lemma split_row (name : string) (ops sec : float) :
  lacks "|" name = true ->
  split_on "|" (row name ops sec) =
  [ "  " ++ ljust 15 name ++ " ";
    (" " ++ rjust 15 (format_float_f true 2 ops)) ++ " OPS/sec ";
    (" " ++ format_float_f false 4 sec) ++ "s" ].
Proof.
  intros Hname. rewrite row_columns.
  rewrite split_on_app, split_on_app, split_on_lacks; try reflexivity.
  - rewrite !lacks_app, format_float_f_no_bar. reflexivity.
  - unfold rjust. rewrite !lacks_app, lacks_spaces, format_float_f_no_bar.
    reflexivity.
  - unfold ljust. rewrite !lacks_app, Hname, lacks_spaces. reflexivity.
Qed.

Lemma shape_of_row (name : string) (ops sec : float) :
  lacks "|" name = true ->
  shape_of (row name ops sec) =
  DataRow (strip ("  " ++ ljust 15 name ++ " "))
          (String.length ("  " ++ ljust 15 name ++ " ")).
Proof.
  intros Hname. unfold shape_of. rewrite split_row by assumption.
  rewrite !ends_with_app. reflexivity.
Qed.




Lemma data_rows_of_app (a b : list string) :
  data_rows_of (a ++ b)%list = (data_rows_of a ++ data_rows_of b)%list.
Proof. apply List.filter_app. Qed.

Lemma is_data_row_row (name : string) (ops sec : float) :
  lacks "|" name = true -> is_data_row (row name ops sec) = true.
Proof. intros H. unfold is_data_row. now rewrite shape_of_row. Qed.

Lemma label_of_row (name : string) (ops sec : float) :
  lacks "|" name = true ->
  label_of (row name ops sec) = strip ("  " ++ ljust 15 name ++ " ").
Proof. intros H. unfold label_of. now rewrite shape_of_row. Qed.

Lemma data_rows_of_data_rows (w : world) :
  data_rows_of (data_rows w) = data_rows w.
Proof.
  unfold data_rows_of, data_rows, data_row. cbn [List.filter].
  rewrite !is_data_row_row by reflexivity. reflexivity.
Qed.

Lemma data_rows_of_report (w : world) :
  data_rows_of (preamble ++ data_rows w ++ [rule; ""])%list = data_rows w.
Proof.
  rewrite !data_rows_of_app, data_rows_of_data_rows.
  change (data_rows_of preamble) with (@nil string).
  change (data_rows_of [rule; ""]) with (@nil string).
  apply app_nil_r.
Qed.

Lemma labels_of_data_rows (w : world) :
  map label_of (data_rows w) =
  ["Integer Add"; "Double Arith"; "String Concat"; "Array Push"; "Struct Access"].
Proof.
  unfold data_rows, data_row. cbn [map].
  rewrite !label_of_row by reflexivity. reflexivity.
Qed.

Lemma data_rows_of_firstn (w : world) (k : nat) :
  data_rows_of (firstn k (data_rows w)) = firstn k (data_rows w).
Proof.
  unfold data_rows_of, data_rows, data_row.
  destruct k as [|[|[|[|[|k]]]]]; cbn [firstn List.filter];
    rewrite ?firstn_nil; cbn [List.filter];
    rewrite ?is_data_row_row by reflexivity; reflexivity.
Qed.

(** ** The number a printed float denotes *)


















Lemma struct_field_pos (k : Z) :
  1 <= k -> struct_field (Z.to_nat k) = k - 1.
Proof.
  intros Hk. unfold struct_field.
  destruct (Z.to_nat k) as [|j] eqn:Hj; lia.
Qed.

Lemma struct_store_heap (w : world) :
  heap (struct_store w) = <[next_loc w := Instance (mkObj 49999999)]> (heap w).
Proof.
  unfold struct_store, allocated. cbn [heap].
  rewrite (struct_field_pos struct_limit) by (unfold struct_limit; lia).
  reflexivity.
Qed.

(** ** What the two growing buffers hold *)





(** ** Counting loops and termination *)

Section CountsUp.

Context {L : Type} (counter : L -> Z) (cond : L -> bool) (body : L -> M L).
Variables (limit : Z) (st : nat -> L) (wd : nat -> world).

Hypothesis limit_nonneg : 0 <= limit.
Hypothesis cond_counter : forall l : L, cond l = (counter l <? limit).
Hypothesis counter_st : forall k : nat, counter (st k) = Z.of_nat k.
Hypothesis body_st : forall k : nat,
    (k < Z.to_nat limit)%nat ->
    body (st k) (wd k) = (Done (st (S k)), wd (S k)).

Lemma counts_up_steps (k : nat) :
  (k < Z.to_nat limit)%nat ->
  cond (st k) = true /\ body (st k) (wd k) = (Done (st (S k)), wd (S k)).
Proof.
  intros Hk. split; [|apply body_st; assumption].
  rewrite cond_counter, counter_st. apply Z.ltb_lt. lia.
Qed.

Lemma counts_up_exit : cond (st (Z.to_nat limit)) = false.
Proof. rewrite cond_counter, counter_st. apply Z.ltb_ge. lia. Qed.

Lemma counts_up_intro : counts_up counter cond body limit (st 0%nat) (wd 0%nat).
Proof.
  split; [apply counter_st|]. split; [exact cond_counter|]. split.
  - intros k Hk.
    exists (st (Z.to_nat k)), (st (S (Z.to_nat k))),
      (wd (Z.to_nat k)), (wd (S (Z.to_nat k))).
    split; [|split; [|split]].
    + apply (iterate_run cond body st wd (Z.to_nat limit) counts_up_steps).
      lia.
    + rewrite counter_st. lia.
    + apply body_st. lia.
    + rewrite counter_st. lia.
  - exists (st (Z.to_nat limit)), (wd (Z.to_nat limit)). split.
    + apply counting_loop; [exact counts_up_steps | exact counts_up_exit].
    + rewrite counter_st. lia.
Qed.

End CountsUp.

Lemma int_counts_up (w : world) :
  counts_up (fun i : Z => i) int_cond int_body 1000000000 0 w.
Proof.
  apply (counts_up_intro (fun i : Z => i) int_cond int_body 1000000000
                         Z.of_nat (fun _ => w)); try reflexivity; [lia|].
  intros k _. unfold int_body, ret. of_nat_succ. reflexivity.
Qed.

Lemma double_counts_up (w : world) :
  counts_up snd double_cond double_body 100000000 (Float.zero, 0) w.
Proof.
  apply (counts_up_intro snd double_cond double_body 100000000
                         double_state (fun _ => w)); try reflexivity.
  - lia.
  - intros [v i]. reflexivity.
  - intros k _. unfold double_body, double_state, ret. of_nat_succ. reflexivity.
Qed.

Lemma string_counts_up (w : world) :
  counts_up snd string_cond string_body 50000 ("", 0) w.
Proof.
  apply (counts_up_intro snd string_cond string_body 50000
                         string_state (fun _ => w)); try reflexivity.
  - lia.
  - intros [s i]. reflexivity.
  - intros k _. unfold string_body, string_state, ret. of_nat_succ. reflexivity.
Qed.

Lemma array_counts_up (arr : loc) (h : gmap loc object) (w : world) :
  counts_up (fun i : Z => i) array_cond (array_body arr) 1000000
            0 (set_heap (<[arr := PyList []]> h) w).
Proof.
  apply (counts_up_intro (fun i : Z => i) array_cond (array_body arr) 1000000
                         Z.of_nat (array_world arr h w)); try reflexivity; [lia|].
  intros k _. apply array_body_step.
Qed.

Lemma struct_counts_up (o : loc) (h : gmap loc object) (w : world) :
  counts_up snd struct_cond (struct_body o) 50000000
            (None, 0) (set_heap (<[o := Instance (mkObj 0)]> h) w).
Proof.
  apply (counts_up_intro snd struct_cond (struct_body o) 50000000
                         struct_state (struct_world o h w)); try reflexivity.
  - lia.
  - intros [x i]. reflexivity.
  - intros k _. apply struct_body_step.
Qed.

Lemma terminates_done {A : Type} (m : M A) (w w' : world) (a : A) :
  m w = (Done a, w') -> terminates m w.
Proof. intros H. unfold terminates. rewrite H. exact I. Qed.

Lemma terminates_raised {A : Type} (m : M A) (w w' : world) (e : exn) :
  m w = (Raised e, w') -> terminates m w.
Proof. intros H. unfold terminates. rewrite H. exact I. Qed.

(** A run either completes with the full report or is ended by the first
    benchmark that measures zero. *)
Lemma main_outcome (fuel : N) (w : world) :
  int_limit < Z.of_N fuel ->
  (exists w' : world,
      main fuel w = (Done tt, w')
      /\ stdout w' = (stdout w ++ preamble ++ data_rows w ++ [rule; ""])%list)
  \/ (exists (k : nat) (w' : world),
         (k < 5)%nat
         /\ main fuel w = (Raised ZeroDivisionError, w')
         /\ stdout w' = (stdout w ++ preamble ++ firstn k (data_rows w))%list).
Proof.
  intros Hfuel.
  assert (forall k : nat,
             (k < 5)%nat ->
             (forall j : nat, (j < k)%nat -> Float.is_zero (sec_of w j) = false) ->
             Float.is_zero (sec_of w k) = true ->
             exists (k : nat) (w' : world),
               (k < 5)%nat
               /\ main fuel w = (Raised ZeroDivisionError, w')
               /\ stdout w' = (stdout w ++ preamble ++ firstn k (data_rows w))%list)
    as Habort.
  { intros k Hk Hnz Hz.
    destruct (main_aborts fuel w Hfuel k Hk Hnz Hz) as (w' & Hrun & Hout & _).
    exists k, w'. auto. }
  destruct (Float.is_zero (sec_of w 0)) eqn:H0;
    [right; apply (Habort 0%nat); [lia | intros j Hj; lia | exact H0]|].
  destruct (Float.is_zero (sec_of w 1)) eqn:H1;
    [right; apply (Habort 1%nat); [lia | | exact H1];
     intros j Hj; destruct j as [|j]; [exact H0 | lia]|].
  destruct (Float.is_zero (sec_of w 2)) eqn:H2;
    [right; apply (Habort 2%nat); [lia | | exact H2];
     intros j Hj; destruct j as [|[|j]]; [exact H0 | exact H1 | lia]|].
  destruct (Float.is_zero (sec_of w 3)) eqn:H3;
    [right; apply (Habort 3%nat); [lia | | exact H3];
     intros j Hj; destruct j as [|[|[|j]]];
     [exact H0 | exact H1 | exact H2 | lia]|].
  destruct (Float.is_zero (sec_of w 4)) eqn:H4;
    [right; apply (Habort 4%nat); [lia | | exact H4];
     intros j Hj; destruct j as [|[|[|[|j]]]];
     [exact H0 | exact H1 | exact H2 | exact H3 | lia]|].
  left.
  destruct (main_completes fuel w Hfuel) as (w' & Hrun & Hout & _).
  { intros k Hk. destruct k as [|[|[|[|[|k]]]]]; try assumption. lia. }
  exists w'. auto.
Qed.

Section BenchTermination.

Variables (fuel : N) (w : world).
Hypothesis enough_fuel : int_limit < Z.of_N fuel.

Lemma bench_int_terminates : terminates (bench_int fuel) w.
Proof.
  destruct (Float.is_zero (elapsed w)) eqn:Hz.
  - eapply terminates_raised. apply bench_int_raises; assumption.
  - eapply terminates_done. apply bench_int_done; assumption.
Qed.

Lemma bench_double_terminates : terminates (bench_double fuel) w.
Proof.
  destruct (Float.is_zero (elapsed w)) eqn:Hz.
  - eapply terminates_raised. apply bench_double_raises; assumption.
  - eapply terminates_done. apply bench_double_done; assumption.
Qed.

Lemma bench_string_terminates : terminates (bench_string fuel) w.
Proof.
  destruct (Float.is_zero (elapsed w)) eqn:Hz.
  - eapply terminates_raised. apply bench_string_raises; assumption.
  - eapply terminates_done. apply bench_string_done; assumption.
Qed.

Lemma bench_array_terminates : terminates (bench_array fuel) w.
Proof.
  destruct (Float.is_zero (elapsed w)) eqn:Hz.
  - eapply terminates_raised. apply bench_array_raises; assumption.
  - eapply terminates_done. apply bench_array_done; assumption.
Qed.

Lemma bench_struct_terminates : terminates (bench_struct fuel) w.
Proof.
  destruct (Float.is_zero (elapsed w)) eqn:Hz.
  - eapply terminates_raised. apply bench_struct_raises; assumption.
  - eapply terminates_done. apply bench_struct_done; assumption.
Qed.

Lemma main_terminates : terminates (main fuel) w.
Proof.
  destruct (main_outcome fuel w enough_fuel)
    as [(w' & Hrun & _) | (k & w' & _ & Hrun & _)].
  - eapply terminates_done. exact Hrun.
  - eapply terminates_raised. exact Hrun.
Qed.

End BenchTermination.

(** * The claims *)

(** C1, as amended.  When the elapsed time of a benchmark reads as zero,
    the division [limit / sec] raises [ZeroDivisionError] and nothing
    catches it: the run ends there.  The rows of the benchmarks before it
    have been printed; that benchmark and the ones after it print
    nothing, and neither does the closing rule. *)
Theorem zero_elapsed_aborts_run (fuel : N) (w : world) (k : nat) :
  int_limit < Z.of_N fuel ->
  (k < 5)%nat ->
  (forall j : nat, (j < k)%nat -> Float.is_zero (sec_of w j) = false) ->
  Float.is_zero (sec_of w k) = true ->
  exists w' : world,
    main fuel w = (Raised ZeroDivisionError, w')
    /\ stdout w' = (stdout w ++ preamble ++ firstn k (data_rows w))%list
    /\ data_rows_of (preamble ++ firstn k (data_rows w))%list
       = firstn k (data_rows w)
    /\ List.length (firstn k (data_rows w)) = k.
Proof.
  intros Hfuel Hk Hnz Hz.
  destruct (main_aborts fuel w Hfuel k Hk Hnz Hz) as (w' & Hrun & Hout & _).
  exists w'. repeat split; try assumption.
  - rewrite data_rows_of_app, data_rows_of_firstn. reflexivity.
  - rewrite length_firstn. cbn [data_rows List.length]. lia.
Qed.

Lemma zero_elapsed_aborts_run_witness :
  int_limit < Z.of_N plenty
  /\ (2 < 5)%nat
  /\ (forall j : nat, (j < 2)%nat ->
                      Float.is_zero (sec_of frozen_third_world j) = false)
  /\ Float.is_zero (sec_of frozen_third_world 2) = true
  /\ exists w' : world,
       main plenty frozen_third_world = (Raised ZeroDivisionError, w')
       /\ stdout w' = (stdout frozen_third_world ++ preamble
                       ++ firstn 2 (data_rows frozen_third_world))%list
       /\ data_rows_of (preamble ++ firstn 2 (data_rows frozen_third_world))%list
          = firstn 2 (data_rows frozen_third_world)
       /\ List.length (firstn 2 (data_rows frozen_third_world)) = 2%nat.
Proof.
  assert (forall j : nat, (j < 2)%nat ->
            Float.is_zero (sec_of frozen_third_world j) = false) as Hnz.
  { intros j Hj. destruct j as [|[|j]]; [reflexivity | reflexivity | lia]. }
  split; [reflexivity|]. split; [lia|]. split; [exact Hnz|].
  split; [reflexivity|].
  apply (zero_elapsed_aborts_run plenty frozen_third_world 2);
    [reflexivity | lia | exact Hnz | reflexivity].
Defined.

(** C1, as stated, fails.  The first benchmark measures zero and the four
    others would measure a non-zero time: the run ends with an uncaught
    [ZeroDivisionError] and the output holds the header alone, no row of
    any benchmark. *)
Lemma zero_elapsed_counterexample :
  Float.is_zero (sec_of frozen_start_world 0) = true
  /\ Float.is_zero (sec_of frozen_start_world 1) = false
  /\ Float.is_zero (sec_of frozen_start_world 2) = false
  /\ Float.is_zero (sec_of frozen_start_world 3) = false
  /\ Float.is_zero (sec_of frozen_start_world 4) = false
  /\ exists w' : world,
       main plenty frozen_start_world = (Raised ZeroDivisionError, w')
       /\ stdout w' = preamble
       /\ data_rows_of (stdout w') = [].
Proof.
  do 5 (split; [reflexivity|]).
  destruct (main_aborts plenty frozen_start_world) with (k := 0%nat)
    as (w' & Hrun & Hout & _);
    [reflexivity | lia | intros j Hj; lia | reflexivity |].
  exists w'. rewrite Hout. split; [exact Hrun|]. split; reflexivity.
Qed.

(** C2.  In each of the five benchmarks, when the time measured is not
    zero, the value handed to [print_result] is the quotient of one
    binary64 division: the iteration count, converted to a float without
    loss, divided by the second clock reading minus the first. *)
Theorem throughput_is_count_over_elapsed (fuel : N) (w : world) :
  int_limit < Z.of_N fuel ->
  Float.is_zero (float_sub (clock w (S (ticks w))) (clock w (ticks w))) = false ->
  let sec := float_sub (clock w (S (ticks w))) (clock w (ticks w)) in
  let quotient (count : Z) := Float.ieee_div (Float.of_int count) sec in
  bench_int fuel w =
    print_result "Integer Add" (quotient 1000000000) sec (after_timing w)
  /\ bench_double fuel w =
    print_result "Double Arith" (quotient 100000000) sec (after_timing w)
  /\ bench_string fuel w =
    print_result "String Concat" (quotient 50000) sec (after_timing w)
  /\ bench_array fuel w =
    print_result "Array Push" (quotient 1000000) sec
                 (after_timing (array_store w))
  /\ bench_struct fuel w =
    print_result "Struct Access" (quotient 50000000) sec
                 (after_timing (struct_store w))
  /\ map exact_int (map Float.of_int
                        [1000000000; 100000000; 50000; 1000000; 50000000])
     = map Some [1000000000; 100000000; 50000; 1000000; 50000000].
Proof.
  intros Hfuel Hnz sec quotient.
  split; [rewrite bench_int_done by assumption; reflexivity|].
  split; [rewrite bench_double_done by assumption; reflexivity|].
  split; [rewrite bench_string_done by assumption; reflexivity|].
  split; [rewrite bench_array_done by assumption; reflexivity|].
  split; [rewrite bench_struct_done by assumption; reflexivity|].
  reflexivity.
Qed.

Lemma throughput_is_count_over_elapsed_witness :
  int_limit < Z.of_N plenty
  /\ Float.is_zero (float_sub (clock advancing_world 1) (clock advancing_world 0))
     = false
  /\ bench_int plenty advancing_world =
     print_result "Integer Add" (Float.of_int 20000000) (Float.of_int 50)
                  (after_timing advancing_world).
Proof.
  split; [reflexivity|]. split; [reflexivity|].
  destruct (throughput_is_count_over_elapsed plenty advancing_world)
    as [Hint _]; [reflexivity | reflexivity |].
  exact Hint.
Defined.

(** C3, as amended.  A run in which every benchmark measures a non-zero
    time prints the title, the header, exactly five data rows and the
    closing rule.  The rows come in the order Integer Add, Double Arith,
    String Concat, Array Push, Struct Access, the [k]-th one computed from
    clock readings [2k] and [2k + 1]: each benchmark has printed its row
    before the next one reads the clock.  The header row, its padding
    aside, reads [Benchmark | Performance | Time], and the label of the
    first data row is [Integer Add]. *)
Theorem full_report_in_fixed_order (fuel : N) (w : world) :
  int_limit < Z.of_N fuel ->
  (forall k : nat, (k < 5)%nat -> Float.is_zero (sec_of w k) = false) ->
  exists (w' : world) (report : list string),
    main fuel w = (Done tt, w')
    /\ stdout w' = (stdout w ++ report)%list
    /\ report = (preamble ++ data_rows w ++ [rule; ""])%list
    /\ data_rows_of report = data_rows w
    /\ List.length (data_rows_of report) = 5%nat
    /\ map label_of (data_rows_of report) =
       ["Integer Add"; "Double Arith"; "String Concat"; "Array Push";
        "Struct Access"]
    /\ nth_error report 2 = Some header_line
    /\ String.concat " " (words header_line) = "Benchmark | Performance | Time"
    /\ option_map label_of (hd_error (data_rows_of report)) = Some "Integer Add"
    /\ ticks w' = (10 + ticks w)%nat.
Proof.
  intros Hfuel Hnz.
  destruct (main_completes fuel w Hfuel Hnz) as (w' & Hrun & Hout & _ & Hticks).
  exists w', (preamble ++ data_rows w ++ [rule; ""])%list.
  rewrite data_rows_of_report, labels_of_data_rows.
  split; [exact Hrun|]. split; [exact Hout|].
  do 6 (split; [reflexivity|]).
  split; [|exact Hticks].
  unfold data_rows, data_row. cbn [hd_error option_map].
  rewrite label_of_row by reflexivity. reflexivity.
Qed.

Lemma full_report_in_fixed_order_witness :
  int_limit < Z.of_N plenty
  /\ (forall k : nat, (k < 5)%nat ->
                      Float.is_zero (sec_of advancing_world k) = false)
  /\ exists (w' : world) (report : list string),
       main plenty advancing_world = (Done tt, w')
       /\ stdout w' = (stdout advancing_world ++ report)%list
       /\ report = (preamble ++ data_rows advancing_world ++ [rule; ""])%list
       /\ data_rows_of report = data_rows advancing_world
       /\ List.length (data_rows_of report) = 5%nat
       /\ map label_of (data_rows_of report) =
          ["Integer Add"; "Double Arith"; "String Concat"; "Array Push";
           "Struct Access"]
       /\ nth_error report 2 = Some header_line
       /\ String.concat " " (words header_line)
          = "Benchmark | Performance | Time"
       /\ option_map label_of (hd_error (data_rows_of report))
          = Some "Integer Add"
       /\ ticks w' = (10 + ticks advancing_world)%nat.
Proof.
  assert (forall k : nat, (k < 5)%nat ->
            Float.is_zero (sec_of advancing_world k) = false) as Hnz.
  { intros k Hk.
    destruct k as [|[|[|[|[|k]]]]]; try reflexivity. lia. }
  split; [reflexivity|]. split; [exact Hnz|].
  apply (full_report_in_fixed_order plenty advancing_world);
    [reflexivity | exact Hnz].
Defined.

(** C3, as stated, fails.  The third benchmark measures zero: the run
    ends in [ZeroDivisionError] with two data rows printed, not five. *)
Lemma five_rows_counterexample :
  exists w' : world,
    main plenty frozen_third_world = (Raised ZeroDivisionError, w')
    /\ List.length (data_rows_of (stdout w')) = 2%nat
    /\ map label_of (data_rows_of (stdout w')) = ["Integer Add"; "Double Arith"].
Proof.
  destruct (main_aborts plenty frozen_third_world) with (k := 2%nat)
    as (w' & Hrun & Hout & _);
    [reflexivity | lia | | reflexivity |].
  { intros j Hj. destruct j as [|[|j]]; [reflexivity | reflexivity | lia]. }
  exists w'. rewrite Hout. split; [exact Hrun|].
  split; vm_compute; reflexivity.
Qed.



(** C5, as amended.  [print_header] takes no input and emits three
    lines whatever the state it is called in: a rule of dashes, the
    column-header line showing [Benchmark] left-aligned in 15 columns,
    [Performance] right-aligned in 15 columns and [Time], separated by
    pipes, and the same rule again.  Calling it twice emits the three
    lines twice.  The title line is not printed by [print_header]: the
    entry point prints it and then calls [print_header]. *)
Theorem print_header_emits_rule_columns_rule (w : world) :
  print_header w = (Done tt, printed rule (printed header_line (printed rule w)))
  /\ stdout (snd (print_header w)) = (stdout w ++ [rule; header_line; rule])%list
  /\ stdout (snd ((print_header ;; print_header) w))
     = (stdout w ++ [rule; header_line; rule] ++ [rule; header_line; rule])%list
  /\ header_line = "  Benchmark       |     Performance | Time"
  /\ String.concat " " (words header_line) = "Benchmark | Performance | Time"
  /\ rule = "  " ++ dashes 61
  /\ existsb (String.eqb title) [rule; header_line; rule] = false
  /\ (forall fuel : N,
        main fuel =
        (print title ;; print_header ;;
         bench_int fuel ;; bench_double fuel ;; bench_string fuel ;;
         bench_array fuel ;; bench_struct fuel ;; print rule ;; print "")).
Proof.
  split; [reflexivity|].
  split; [cbn [print_header bind print snd stdout]; rewrite <- !app_assoc;
          reflexivity|].
  split; [cbn [print_header bind print snd stdout]; rewrite <- !app_assoc;
          reflexivity|].
  repeat split; reflexivity.
Qed.

(** C5, as stated, fails.  The three lines [print_header] emits are a
    rule, the column headers and a rule: none of them is the title, and
    the column-header line does not contain the text
    [Benchmark | Performance | Time], its columns being padded. *)
Lemma print_header_counterexample :
  stdout (snd (print_header (initial_world (clock_of []))))
  = [ "  -------------------------------------------------------------";
      "  Benchmark       |     Performance | Time";
      "  -------------------------------------------------------------" ]
  /\ existsb (String.eqb ">>> Python 3 Benchmark Suite <<<")
             (stdout (snd (print_header (initial_world (clock_of []))))) = false
  /\ existsb (fun line => match index 0 "Benchmark | Performance | Time" line with
                          | Some _ => true
                          | None => false
                          end)
             (stdout (snd (print_header (initial_world (clock_of []))))) = false.
Proof. repeat split; reflexivity. Qed.








(** C10.  Each of the five loops counts up: its counter starts at 0,
    every iteration adds exactly 1 to it, the loop goes on exactly while
    the counter is below the limit and exits, after as many iterations as
    the limit says, with the counter at the limit.  So, given fuel for
    the longest loop, each benchmark function comes to an end, and so
    does the whole run. *)
Theorem every_loop_terminates
    (fuel : N) (w : world) (h : gmap loc object) (ref : loc) :
  int_limit < Z.of_N fuel ->
  counts_up (fun i : Z => i) int_cond int_body 1000000000 0 w
  /\ counts_up snd double_cond double_body 100000000 (Float.zero, 0) w
  /\ counts_up snd string_cond string_body 50000 ("", 0) w
  /\ counts_up (fun i : Z => i) array_cond (array_body ref) 1000000
               0 (set_heap (<[ref := PyList []]> h) w)
  /\ counts_up snd struct_cond (struct_body ref) 50000000
               (None, 0) (set_heap (<[ref := Instance (mkObj 0)]> h) w)
  /\ terminates (bench_int fuel) w
  /\ terminates (bench_double fuel) w
  /\ terminates (bench_string fuel) w
  /\ terminates (bench_array fuel) w
  /\ terminates (bench_struct fuel) w
  /\ terminates (main fuel) w.
Proof.
  intros Hfuel.
  split; [exact (int_counts_up w)|].
  split; [exact (double_counts_up w)|].
  split; [exact (string_counts_up w)|].
  split; [exact (array_counts_up ref h w)|].
  split; [exact (struct_counts_up ref h w)|].
  split; [exact (bench_int_terminates fuel w Hfuel)|].
  split; [exact (bench_double_terminates fuel w Hfuel)|].
  split; [exact (bench_string_terminates fuel w Hfuel)|].
  split; [exact (bench_array_terminates fuel w Hfuel)|].
  split; [exact (bench_struct_terminates fuel w Hfuel)|].
  exact (main_terminates fuel w Hfuel).
Qed.

Lemma every_loop_terminates_witness :
  int_limit < Z.of_N plenty
  /\ terminates (main plenty) frozen_third_world
  /\ terminates (main plenty) advancing_world.
Proof.
  split; [reflexivity|]. split.
  - exact (proj2 (proj2 (proj2 (proj2 (proj2 (proj2 (proj2 (proj2 (proj2 (proj2
      (every_loop_terminates plenty frozen_third_world ∅ 1%positive
                             eq_refl))))))))))).
  - exact (proj2 (proj2 (proj2 (proj2 (proj2 (proj2 (proj2 (proj2 (proj2 (proj2
      (every_loop_terminates plenty advancing_world ∅ 1%positive
                             eq_refl))))))))))).
Defined.

(** * Further properties of the script *)

(** ** The outcome of a benchmark *)

Lemma sub_self_is_zero (x : float) :
  Float.is_finite x = true -> Float.is_zero (float_sub x x) = true.
Proof.
  destruct x as [s|s| |s m e]; try discriminate; intros _.
  - now destruct s.
  - unfold float_sub, Float.sub, SFsub.
    cbv zeta. rewrite Z.min_id. unfold shl_align. rewrite Z.sub_diag.
    cbn [fst]. rewrite ?Z.sub_diag. reflexivity.
Qed.

Section Outcomes.

Variables (fuel : N) (w : world).
Hypothesis enough_fuel : int_limit < Z.of_N fuel.

Lemma bench_int_outcome : fst (bench_int fuel w) = outcome_for (elapsed w).
Proof.
  unfold outcome_for. destruct (Float.is_zero (elapsed w)) eqn:Hz.
  - rewrite bench_int_raises by assumption. reflexivity.
  - rewrite bench_int_done by assumption. reflexivity.
Qed.

Lemma bench_double_outcome : fst (bench_double fuel w) = outcome_for (elapsed w).
Proof.
  unfold outcome_for. destruct (Float.is_zero (elapsed w)) eqn:Hz.
  - rewrite bench_double_raises by assumption. reflexivity.
  - rewrite bench_double_done by assumption. reflexivity.
Qed.

Lemma bench_string_outcome : fst (bench_string fuel w) = outcome_for (elapsed w).
Proof.
  unfold outcome_for. destruct (Float.is_zero (elapsed w)) eqn:Hz.
  - rewrite bench_string_raises by assumption. reflexivity.
  - rewrite bench_string_done by assumption. reflexivity.
Qed.

Lemma bench_array_outcome : fst (bench_array fuel w) = outcome_for (elapsed w).
Proof.
  unfold outcome_for. destruct (Float.is_zero (elapsed w)) eqn:Hz.
  - rewrite bench_array_raises by assumption. reflexivity.
  - rewrite bench_array_done by assumption. reflexivity.
Qed.

Lemma bench_struct_outcome : fst (bench_struct fuel w) = outcome_for (elapsed w).
Proof.
  unfold outcome_for. destruct (Float.is_zero (elapsed w)) eqn:Hz.
  - rewrite bench_struct_raises by assumption. reflexivity.
  - rewrite bench_struct_done by assumption. reflexivity.
Qed.

End Outcomes.

(** X1.  A benchmark raises exactly when the time it measures is zero,
    and then it raises [ZeroDivisionError]; for any other time, negative,
    infinite or undefined ones included, it returns normally.  No other
    exception can come out of it: none of the iteration counts is too
    large for a float. *)
Theorem benchmark_raises_iff_zero_elapsed (fuel : N) (w : world) :
  int_limit < Z.of_N fuel ->
  fst (bench_int fuel w) = outcome_for (elapsed w)
  /\ fst (bench_double fuel w) = outcome_for (elapsed w)
  /\ fst (bench_string fuel w) = outcome_for (elapsed w)
  /\ fst (bench_array fuel w) = outcome_for (elapsed w)
  /\ fst (bench_struct fuel w) = outcome_for (elapsed w).
Proof.
  intros Hfuel.
  split; [exact (bench_int_outcome fuel w Hfuel)|].
  split; [exact (bench_double_outcome fuel w Hfuel)|].
  split; [exact (bench_string_outcome fuel w Hfuel)|].
  split; [exact (bench_array_outcome fuel w Hfuel)|].
  exact (bench_struct_outcome fuel w Hfuel).
Qed.

Lemma benchmark_raises_iff_zero_elapsed_witness :
  int_limit < Z.of_N plenty
  /\ fst (bench_string plenty frozen_start_world) = Raised ZeroDivisionError
  /\ fst (bench_string plenty advancing_world) = Done tt.
Proof.
  split; [reflexivity|]. split.
  - exact (proj1 (proj2 (proj2
      (benchmark_raises_iff_zero_elapsed plenty frozen_start_world eq_refl)))).
  - exact (proj1 (proj2 (proj2
      (benchmark_raises_iff_zero_elapsed plenty advancing_world eq_refl)))).
Defined.

(** X2.  A clock that gives the same finite reading twice in a row makes
    the benchmark that takes the two readings raise [ZeroDivisionError],
    whatever the reading is; the benchmark has printed nothing. *)
Theorem same_reading_twice_raises (fuel : N) (w : world) (x : float) :
  int_limit < Z.of_N fuel ->
  Float.is_finite x = true ->
  clock w (ticks w) = x ->
  clock w (S (ticks w)) = x ->
  bench_int fuel w = (Raised ZeroDivisionError, after_timing w)
  /\ bench_double fuel w = (Raised ZeroDivisionError, after_timing w)
  /\ bench_string fuel w = (Raised ZeroDivisionError, after_timing w)
  /\ bench_array fuel w = (Raised ZeroDivisionError, after_timing (array_store w))
  /\ bench_struct fuel w
     = (Raised ZeroDivisionError, after_timing (struct_store w))
  /\ stdout (after_timing w) = stdout w
  /\ stdout (after_timing (array_store w)) = stdout w
  /\ stdout (after_timing (struct_store w)) = stdout w.
Proof.
  intros Hfuel Hfin Hstart Hend.
  assert (Float.is_zero (elapsed w) = true) as Hz.
  { unfold elapsed. rewrite Hstart, Hend. apply sub_self_is_zero, Hfin. }
  split; [apply bench_int_raises; assumption|].
  split; [apply bench_double_raises; assumption|].
  split; [apply bench_string_raises; assumption|].
  split; [apply bench_array_raises; assumption|].
  split; [apply bench_struct_raises; assumption|].
  split; [reflexivity|]. split; reflexivity.
Qed.

Lemma same_reading_twice_raises_witness :
  int_limit < Z.of_N plenty
  /\ Float.is_finite (Float.of_int 100) = true
  /\ clock frozen_start_world (ticks frozen_start_world) = Float.of_int 100
  /\ clock frozen_start_world (S (ticks frozen_start_world)) = Float.of_int 100
  /\ bench_int plenty frozen_start_world
     = (Raised ZeroDivisionError, after_timing frozen_start_world).
Proof.
  split; [reflexivity|]. split; [reflexivity|].
  split; [reflexivity|]. split; [reflexivity|].
  exact (proj1 (same_reading_twice_raises plenty frozen_start_world
                  (Float.of_int 100) eq_refl eq_refl eq_refl eq_refl)).
Defined.

(** ** Clock and store *)

Ltac store_fields :=
  cbn [clock ticks stdout heap next_loc printed after_timing allocated
       array_store struct_store store_after].

Section RunWorld.

Variables (fuel : N) (w : world).
Hypothesis enough_fuel : int_limit < Z.of_N fuel.

Lemma main_completes_store :
  (forall k : nat, (k < 5)%nat -> Float.is_zero (sec_of w k) = false) ->
  exists w' : world,
    main fuel w = (Done tt, w')
    /\ heap w' = heap (store_after w 5)
    /\ next_loc w' = next_loc (store_after w 5).
Proof.
  intros Hnz.
  pose proof (Hnz 0%nat ltac:(lia)) as H0.
  pose proof (Hnz 1%nat ltac:(lia)) as H1.
  pose proof (Hnz 2%nat ltac:(lia)) as H2.
  pose proof (Hnz 3%nat ltac:(lia)) as H3.
  pose proof (Hnz 4%nat ltac:(lia)) as H4.
  clear Hnz. eexists. split.
  - unfold main.
    rewrite (bind_done _ _ _ _ _ (print_done _ _)).
    rewrite (bind_done _ _ _ _ _ (print_header_lines _)).
    step_done bench_int_done.
    step_done bench_double_done.
    step_done bench_string_done.
    step_done bench_array_done.
    step_done bench_struct_done.
    rewrite (bind_done _ _ _ _ _ (print_done _ _)).
    apply print_done.
  - store_fields. split; reflexivity.
Qed.

Lemma main_aborts_store (k : nat) :
  (k < 5)%nat ->
  (forall j : nat, (j < k)%nat -> Float.is_zero (sec_of w j) = false) ->
  Float.is_zero (sec_of w k) = true ->
  exists w' : world,
    main fuel w = (Raised ZeroDivisionError, w')
    /\ heap w' = heap (store_after w (S k))
    /\ next_loc w' = next_loc (store_after w (S k)).
Proof.
  intros Hk Hnz Hz.
  destruct k as [|[|[|[|[|k]]]]]; try lia; clear Hk.
  - eexists. split.
    + unfold main.
      rewrite (bind_done _ _ _ _ _ (print_done _ _)).
      rewrite (bind_done _ _ _ _ _ (print_header_lines _)).
      step_raised bench_int_raises. reflexivity.
    + store_fields. split; reflexivity.
  - pose proof (Hnz 0%nat ltac:(lia)) as H0.
    eexists. split.
    + unfold main.
      rewrite (bind_done _ _ _ _ _ (print_done _ _)).
      rewrite (bind_done _ _ _ _ _ (print_header_lines _)).
      step_done bench_int_done.
      step_raised bench_double_raises. reflexivity.
    + store_fields. split; reflexivity.
  - pose proof (Hnz 0%nat ltac:(lia)) as H0.
    pose proof (Hnz 1%nat ltac:(lia)) as H1.
    eexists. split.
    + unfold main.
      rewrite (bind_done _ _ _ _ _ (print_done _ _)).
      rewrite (bind_done _ _ _ _ _ (print_header_lines _)).
      step_done bench_int_done.
      step_done bench_double_done.
      step_raised bench_string_raises. reflexivity.
    + store_fields. split; reflexivity.
  - pose proof (Hnz 0%nat ltac:(lia)) as H0.
    pose proof (Hnz 1%nat ltac:(lia)) as H1.
    pose proof (Hnz 2%nat ltac:(lia)) as H2.
    eexists. split.
    + unfold main.
      rewrite (bind_done _ _ _ _ _ (print_done _ _)).
      rewrite (bind_done _ _ _ _ _ (print_header_lines _)).
      step_done bench_int_done.
      step_done bench_double_done.
      step_done bench_string_done.
      step_raised bench_array_raises. reflexivity.
    + store_fields. split; reflexivity.
  - pose proof (Hnz 0%nat ltac:(lia)) as H0.
    pose proof (Hnz 1%nat ltac:(lia)) as H1.
    pose proof (Hnz 2%nat ltac:(lia)) as H2.
    pose proof (Hnz 3%nat ltac:(lia)) as H3.
    eexists. split.
    + unfold main.
      rewrite (bind_done _ _ _ _ _ (print_done _ _)).
      rewrite (bind_done _ _ _ _ _ (print_header_lines _)).
      step_done bench_int_done.
      step_done bench_double_done.
      step_done bench_string_done.
      step_done bench_array_done.
      step_raised bench_struct_raises. reflexivity.
    + store_fields. split; reflexivity.
Qed.

(** What a run leaves behind, by the first benchmark that measures
    zero. *)
Lemma main_by_first_zero :
  exists w' : world,
    main fuel w
    = (if (first_zero w =? 5)%nat then Done tt else Raised ZeroDivisionError, w')
    /\ ticks w' = (2 * Nat.min 5 (S (first_zero w)) + ticks w)%nat
    /\ heap w' = heap (store_after w (S (first_zero w)))
    /\ next_loc w' = next_loc (store_after w (S (first_zero w)))
    /\ stdout w'
       = (stdout w ++ preamble ++ firstn (first_zero w) (data_rows w)
          ++ (if (first_zero w =? 5)%nat then [rule; ""] else []))%list.
Proof.
  assert (forall k : nat,
             (k < 5)%nat ->
             (forall j : nat, (j < k)%nat -> Float.is_zero (sec_of w j) = false) ->
             Float.is_zero (sec_of w k) = true ->
             exists w' : world,
               main fuel w = (Raised ZeroDivisionError, w')
               /\ ticks w' = (2 * Nat.min 5 (S k) + ticks w)%nat
               /\ heap w' = heap (store_after w (S k))
               /\ next_loc w' = next_loc (store_after w (S k))
               /\ stdout w'
                  = (stdout w ++ preamble ++ firstn k (data_rows w)
                     ++ (if (k =? 5)%nat then [rule; ""] else []))%list)
    as Habort.
  { intros k Hk Hnz Hz.
    destruct (main_aborts fuel w enough_fuel k Hk Hnz Hz)
      as (w1 & Hrun1 & Hout & Hticks).
    destruct (main_aborts_store k Hk Hnz Hz) as (w2 & Hrun2 & Hheap & Hnext).
    rewrite Hrun1 in Hrun2. injection Hrun2 as <-.
    exists w1. split; [assumption|]. split; [rewrite Hticks; lia|].
    split; [assumption|]. split; [assumption|].
    destruct (Nat.eqb_spec k 5) as [Hfive|_]; [lia|].
    rewrite app_nil_r. exact Hout. }
  unfold first_zero.
  destruct (Float.is_zero (sec_of w 0)) eqn:H0;
    [apply (Habort 0%nat); [lia | intros j Hj; lia | exact H0]|].
  destruct (Float.is_zero (sec_of w 1)) eqn:H1;
    [apply (Habort 1%nat); [lia | | exact H1];
     intros j Hj; destruct j as [|j]; [exact H0 | lia]|].
  destruct (Float.is_zero (sec_of w 2)) eqn:H2;
    [apply (Habort 2%nat); [lia | | exact H2];
     intros j Hj; destruct j as [|[|j]]; [exact H0 | exact H1 | lia]|].
  destruct (Float.is_zero (sec_of w 3)) eqn:H3;
    [apply (Habort 3%nat); [lia | | exact H3];
     intros j Hj; destruct j as [|[|[|j]]];
     [exact H0 | exact H1 | exact H2 | lia]|].
  destruct (Float.is_zero (sec_of w 4)) eqn:H4;
    [apply (Habort 4%nat); [lia | | exact H4];
     intros j Hj; destruct j as [|[|[|[|j]]]];
     [exact H0 | exact H1 | exact H2 | exact H3 | lia]|].
  assert (forall k : nat, (k < 5)%nat -> Float.is_zero (sec_of w k) = false)
    as Hnz.
  { intros k Hk. destruct k as [|[|[|[|[|k]]]]]; try assumption. lia. }
  destruct (main_completes fuel w enough_fuel Hnz)
    as (w1 & Hrun1 & Hout & _ & Hticks).
  destruct (main_completes_store Hnz) as (w2 & Hrun2 & Hheap & Hnext).
  rewrite Hrun1 in Hrun2. injection Hrun2 as <-.
  exists w1. split; [assumption|]. split; [assumption|].
  split; [assumption|]. split; [assumption|]. exact Hout.
Qed.

End RunWorld.

Lemma first_zero_le (w : world) : (first_zero w <= 5)%nat.
Proof.
  unfold first_zero.
  repeat match goal with |- context [if ?b then _ else _] => destruct b end;
    lia.
Qed.

(** X3.  Every benchmark takes exactly two readings of the clock,
    whether it prints its row or raises: the loop between them reads
    none.  A run therefore takes two readings for each benchmark it
    starts: ten when all five print, and [2 (k + 1)] when the [k]-th
    (counted from 0) is the first to measure zero. *)
Theorem two_clock_readings_per_benchmark (fuel : N) (w : world) :
  int_limit < Z.of_N fuel ->
  ticks (snd (bench_int fuel w)) = S (S (ticks w))
  /\ ticks (snd (bench_double fuel w)) = S (S (ticks w))
  /\ ticks (snd (bench_string fuel w)) = S (S (ticks w))
  /\ ticks (snd (bench_array fuel w)) = S (S (ticks w))
  /\ ticks (snd (bench_struct fuel w)) = S (S (ticks w))
  /\ ticks (snd (main fuel w))
     = (2 * Nat.min 5 (S (first_zero w)) + ticks w)%nat
  /\ (fst (main fuel w) = Done tt ->
      ticks (snd (main fuel w)) = (10 + ticks w)%nat).
Proof.
  intros Hfuel.
  split; [destruct (Float.is_zero (elapsed w)) eqn:Hz;
          [rewrite bench_int_raises by assumption
          |rewrite bench_int_done by assumption]; reflexivity|].
  split; [destruct (Float.is_zero (elapsed w)) eqn:Hz;
          [rewrite bench_double_raises by assumption
          |rewrite bench_double_done by assumption]; reflexivity|].
  split; [destruct (Float.is_zero (elapsed w)) eqn:Hz;
          [rewrite bench_string_raises by assumption
          |rewrite bench_string_done by assumption]; reflexivity|].
  split; [destruct (Float.is_zero (elapsed w)) eqn:Hz;
          [rewrite bench_array_raises by assumption
          |rewrite bench_array_done by assumption]; reflexivity|].
  split; [destruct (Float.is_zero (elapsed w)) eqn:Hz;
          [rewrite bench_struct_raises by assumption
          |rewrite bench_struct_done by assumption]; reflexivity|].
  destruct (main_by_first_zero fuel w Hfuel) as (w' & Hrun & Hticks & _).
  rewrite Hrun. cbn [fst snd]. split; [exact Hticks|].
  destruct (Nat.eqb_spec (first_zero w) 5) as [Hfive|Hless];
    [|discriminate].
  intros _. rewrite Hticks, Hfive. reflexivity.
Qed.

Lemma two_clock_readings_per_benchmark_witness :
  int_limit < Z.of_N plenty
  /\ ticks (snd (main plenty frozen_third_world))
     = (6 + ticks frozen_third_world)%nat.
Proof.
  split; [reflexivity|].
  exact (proj1 (proj2 (proj2 (proj2 (proj2 (proj2
    (two_clock_readings_per_benchmark plenty frozen_third_world eq_refl))))))).
Defined.

(** X4.  The benchmarks share no storage.  Integer Add, Double Arith and
    String Concat leave the store as it is.  A run writes to at most two
    references, the first two free ones: the list of Array Push is at
    the first once the run has come to that benchmark, the object of
    Struct Access at the second once it has come to that one, and
    creating the object leaves the list as it was.  Every other cell of
    the store is as before the run. *)
Theorem run_writes_two_fresh_cells (fuel : N) (w : world) :
  int_limit < Z.of_N fuel ->
  (heap (snd (bench_int fuel w)) = heap w
   /\ next_loc (snd (bench_int fuel w)) = next_loc w)
  /\ (heap (snd (bench_double fuel w)) = heap w
      /\ next_loc (snd (bench_double fuel w)) = next_loc w)
  /\ (heap (snd (bench_string fuel w)) = heap w
      /\ next_loc (snd (bench_string fuel w)) = next_loc w)
  /\ (forall l : loc,
         l <> next_loc w -> l <> Pos.succ (next_loc w) ->
         heap (snd (main fuel w)) !! l = heap w !! l)
  /\ heap (snd (main fuel w)) !! next_loc w
     = (if (3 <=? first_zero w)%nat
        then Some (PyList (upto (Z.to_nat array_limit)))
        else heap w !! next_loc w)
  /\ heap (snd (main fuel w)) !! Pos.succ (next_loc w)
     = (if (4 <=? first_zero w)%nat
        then Some (Instance (mkObj 49999999))
        else heap w !! Pos.succ (next_loc w)).
Proof.
  intros Hfuel.
  split; [destruct (Float.is_zero (elapsed w)) eqn:Hz;
          [rewrite bench_int_raises by assumption
          |rewrite bench_int_done by assumption]; split; reflexivity|].
  split; [destruct (Float.is_zero (elapsed w)) eqn:Hz;
          [rewrite bench_double_raises by assumption
          |rewrite bench_double_done by assumption]; split; reflexivity|].
  split; [destruct (Float.is_zero (elapsed w)) eqn:Hz;
          [rewrite bench_string_raises by assumption
          |rewrite bench_string_done by assumption]; split; reflexivity|].
  destruct (main_by_first_zero fuel w Hfuel) as (w' & Hrun & _ & Hheap & _).
  rewrite Hrun. cbn [snd]. rewrite Hheap. clear Hrun Hheap.
  pose proof (first_zero_le w) as Hle.
  assert (next_loc w <> Pos.succ (next_loc w)) as Hfresh by lia.
  destruct (first_zero w) as [|[|[|[|[|[|k]]]]]]; try lia;
    cbn [store_after Nat.leb];
    rewrite ?struct_store_heap;
    unfold array_store, allocated; cbn [heap next_loc];
    (split; [intros l Hl Hl'|split]);
    rewrite ?lookup_insert_eq;
    repeat (rewrite lookup_insert_ne by congruence);
    rewrite ?lookup_insert_eq;
    reflexivity.
Qed.

Lemma run_writes_two_fresh_cells_witness :
  int_limit < Z.of_N plenty
  /\ heap (snd (main plenty advancing_world))
       !! Pos.succ (next_loc advancing_world)
     = Some (Instance (mkObj 49999999)).
Proof.
  split; [reflexivity|].
  exact (proj2 (proj2 (proj2 (proj2 (proj2
    (run_writes_two_fresh_cells plenty advancing_world eq_refl)))))).
Defined.

(** X5.  The number of rows a run prints is the number of benchmarks
    before the first one that measures zero: the run prints the title
    and the header, then the rows of those benchmarks in order, and the
    closing rule and the empty line exactly when all five have printed;
    it returns in that case and raises [ZeroDivisionError] in every
    other. *)
Theorem rows_printed_up_to_first_zero (fuel : N) (w : world) :
  int_limit < Z.of_N fuel ->
  exists (w' : world) (out : list string),
    main fuel w
    = (if (first_zero w =? 5)%nat then Done tt else Raised ZeroDivisionError, w')
    /\ stdout w' = (stdout w ++ out)%list
    /\ out = (preamble ++ firstn (first_zero w) (data_rows w)
              ++ (if (first_zero w =? 5)%nat then [rule; ""] else []))%list
    /\ data_rows_of out = firstn (first_zero w) (data_rows w)
    /\ List.length (data_rows_of out) = first_zero w.
Proof.
  intros Hfuel.
  destruct (main_by_first_zero fuel w Hfuel)
    as (w' & Hrun & _ & _ & _ & Hout).
  exists w'. eexists. split; [exact Hrun|]. split; [exact Hout|].
  split; [reflexivity|].
  assert (data_rows_of
            (preamble ++ firstn (first_zero w) (data_rows w)
             ++ (if (first_zero w =? 5)%nat then [rule; ""] else []))%list
          = firstn (first_zero w) (data_rows w)) as Hrows.
  { rewrite !data_rows_of_app, data_rows_of_firstn.
    change (data_rows_of preamble) with (@nil string).
    destruct (first_zero w =? 5)%nat;
      [change (data_rows_of [rule; ""]) with (@nil string)
      |change (data_rows_of []) with (@nil string)];
      apply app_nil_r. }
  split; [exact Hrows|]. rewrite Hrows, length_firstn.
  change (List.length (data_rows w)) with 5%nat.
  pose proof (first_zero_le w). lia.
Qed.

Lemma rows_printed_up_to_first_zero_witness :
  int_limit < Z.of_N plenty
  /\ exists (w' : world) (out : list string),
       main plenty frozen_third_world = (Raised ZeroDivisionError, w')
       /\ stdout w' = (stdout frozen_third_world ++ out)%list
       /\ out = (preamble ++ firstn 2 (data_rows frozen_third_world) ++ [])%list
       /\ data_rows_of out = firstn 2 (data_rows frozen_third_world)
       /\ List.length (data_rows_of out) = 2%nat.
Proof.
  split; [reflexivity|].
  exact (rows_printed_up_to_first_zero plenty frozen_third_world eq_refl).
Defined.

(** ** The columns of a row *)












(** ** The text of a number *)

Lemma remove_char_app (c : ascii) (a b : string) :
  remove_char c (a ++ b) = remove_char c a ++ remove_char c b.
Proof.
  induction a as [|x a IH]; [reflexivity|].
  rewrite append_cons. cbn [remove_char]. rewrite IH.
  destruct (x =? c)%char; reflexivity.
Qed.

Lemma remove_char_lacks (c : ascii) (s : string) :
  lacks c s = true -> remove_char c s = s.
Proof.
  unfold lacks. induction s as [|x s IH]; [reflexivity|].
  cbn [string_forall remove_char]. intros H.
  apply andb_true_iff in H as [Hx Hs].
  apply negb_true_iff in Hx. rewrite Hx, (IH Hs). reflexivity.
Qed.

Lemma digits_lack_comma (s : string) :
  all_digits s = true -> lacks "," s = true.
Proof.
  apply string_forall_impl. intros c Hc.
  rewrite (digit_not_comma c Hc). reflexivity.
Qed.

Lemma remove_commas_of_group (ds : string) :
  all_digits ds = true -> remove_char "," (group_thousands ds) = ds.
Proof.
  unfold all_digits. induction ds as [|d rest IH]; [reflexivity|].
  cbn [string_forall]. intros H. apply andb_true_iff in H as [Hd Hrest].
  rewrite group_thousands_cons. cbn [remove_char].
  rewrite (digit_not_comma d Hd).
  destruct (_ && _); cbn [remove_char];
    rewrite ?Ascii.eqb_refl, (IH Hrest); reflexivity.
Qed.

Lemma fixed_point_ungrouped (p : nat) (n : Z) :
  remove_char "," (fixed_point true p n) = fixed_point false p n.
Proof.
  unfold fixed_point. rewrite remove_char_app.
  rewrite remove_commas_of_group by apply int_digits_digits.
  f_equal. destruct p as [|p]; [reflexivity|].
  apply remove_char_lacks. rewrite lacks_app.
  rewrite (digits_lack_comma _ (frac_digits_digits (S p) n)). reflexivity.
Qed.

(** X8.  The thousands separators are the only difference between the
    grouped and the plain text of a float: with the commas taken out,
    [f"{x:,.pf}"] is [f"{x:.pf}"], for every float and every precision;
    the plain text has no comma. *)
Theorem grouping_only_adds_commas (p : nat) (x : float) :
  remove_char "," (format_float_f true p x) = format_float_f false p x
  /\ lacks "," (format_float_f false p x) = true.
Proof.
  assert (remove_char "," (format_float_f true p x) = format_float_f false p x)
    as Hremove.
  { destruct x as [s|s| |s m e]; cbn [format_float_f];
      try reflexivity;
      rewrite remove_char_app, ?fixed_point_ungrouped;
      destruct s; reflexivity. }
  split; [exact Hremove|].
  destruct x as [s|s| |s m e]; cbn [format_float_f];
    try reflexivity; try (destruct s; reflexivity);
    rewrite lacks_app; unfold fixed_point; rewrite lacks_app;
    rewrite (digits_lack_comma _ (int_digits_digits _));
    (destruct p as [|p];
     [|rewrite lacks_app,
         (digits_lack_comma _ (frac_digits_digits (S p) _))]);
    destruct s; reflexivity.
Qed.

Lemma int_digits_head (n : Z) :
  exists (d : ascii) (rest : string),
    int_digits n = String d rest /\ is_digit d = true.
Proof.
  pose proof (int_digits_digits n) as Hdig.
  pose proof (int_digits_nonempty n) as Hne.
  destruct (int_digits n) as [|d rest]; [congruence|].
  exists d, rest. split; [reflexivity|].
  unfold all_digits in Hdig. cbn [string_forall] in Hdig.
  apply andb_true_iff in Hdig as [Hd _]. exact Hd.
Qed.

Lemma digit_not_minus (c : ascii) :
  is_digit c = true -> c <> "-"%char.
Proof.
  destruct c as [[] [] [] [] [] [] [] []]; vm_compute; congruence.
Qed.

Lemma fixed_point_unsigned (grouping : bool) (p : nat) (n : Z) :
  String.prefix "-" (fixed_point grouping p n) = false.
Proof.
  unfold fixed_point.
  destruct (int_digits_head (n / 10 ^ Z.of_nat p)) as (d & rest & Hip & Hd).
  rewrite Hip.
  destruct grouping; rewrite ?group_thousands_cons, append_cons;
    cbn [String.prefix];
    (destruct (ascii_dec "-" d) as [<-|Hne];
     [exfalso; exact (digit_not_minus _ Hd eq_refl) | reflexivity]).
Qed.

Lemma prefix_minus (s : string) : String.prefix "-" (String "-" s) = true.
Proof. cbn [String.prefix]. destruct s; reflexivity. Qed.

Lemma format_float_f_sign (grouping : bool) (p : nat) (x : float) :
  String.prefix "-" (format_float_f grouping p x) = sign_bit x.
Proof.
  destruct x as [s|s| |s m e]; cbn [format_float_f sign_bit];
    try reflexivity; try (destruct s; reflexivity);
    (destruct s; cbn [sign_str];
     [rewrite append_cons; apply prefix_minus
     |rewrite append_nil_l; apply fixed_point_unsigned]).
Qed.

(** X9.  The sign of a float is never lost in printing: the text starts
    with a minus sign exactly when the sign bit of the float is set; a
    negative zero is printed as [-0.00], a time that went backwards with
    its minus sign.  NaN is printed as [nan], without a sign. *)
Theorem printed_sign_is_sign_bit (grouping : bool) (p : nat) (x : float) :
  String.prefix "-" (format_float_f grouping p x) = sign_bit x
  /\ format_float_f grouping 2 (S754_zero true) = "-0.00"
  /\ format_float_f grouping p S754_nan = "nan".
Proof.
  split; [apply format_float_f_sign|]. split; [|reflexivity].
  destruct grouping; reflexivity.
Qed.

(** ** Reading a label back *)







(** ** Rounding keeps signs and does not flush to zero *)

Lemma shr_1_digits (r : shr_record) :
  0 <= shr_m r ->
  0 <= shr_m (shr_1 r)
  /\ Zdigits2 (shr_m (shr_1 r)) = Z.max 0 (Zdigits2 (shr_m r) - 1).
Proof.
  destruct r as [m b s]. destruct m as [|[p|p|]|p]; cbn; intros H;
    split; lia.
Qed.

Lemma iter_shr_1_digits (n : positive) :
  forall r : shr_record,
    0 <= shr_m r ->
    0 <= shr_m (SpecFloat.iter_pos shr_1 n r)
    /\ Zdigits2 (shr_m (SpecFloat.iter_pos shr_1 n r))
       = Z.max 0 (Zdigits2 (shr_m r) - Z.pos n).
Proof.
  induction n as [n IH|n IH|]; intros r Hr; cbn [SpecFloat.iter_pos].
  - destruct (shr_1_digits r Hr) as [H1 D1].
    destruct (IH _ H1) as [H2 D2]. destruct (IH _ H2) as [H3 D3].
    split; [exact H3|]. rewrite D3, D2, D1. lia.
  - destruct (IH _ Hr) as [H2 D2]. destruct (IH _ H2) as [H3 D3].
    split; [exact H3|]. rewrite D3, D2. lia.
  - apply shr_1_digits, Hr.
Qed.

Lemma shr_m_of_loc (m : Z) (l : location) : shr_m (shr_record_of_loc m l) = m.
Proof. destruct l as [|[]]; reflexivity. Qed.

Lemma Zdigits2_positive (z : Z) : 0 <= z -> 0 < Zdigits2 z -> 0 < z.
Proof. destruct z; cbn; lia. Qed.

Lemma shr_fexp_nonneg (m e : Z) (l : location) :
  0 <= m -> 0 <= shr_m (fst (shr_fexp Float.prec Float.emax m e l)).
Proof.
  intros Hm. unfold shr_fexp, shr.
  destruct (fexp Float.prec Float.emax (Zdigits2 m + e) - e) as [|n|n];
    cbn [fst]; rewrite ?shr_m_of_loc; try lia.
  apply iter_shr_1_digits. rewrite shr_m_of_loc. exact Hm.
Qed.

Lemma shr_fexp_positive (m e : Z) (l : location) :
  0 < m -> emin Float.prec Float.emax <= e ->
  0 < shr_m (fst (shr_fexp Float.prec Float.emax m e l))
  /\ emin Float.prec Float.emax <= snd (shr_fexp Float.prec Float.emax m e l).
Proof.
  intros Hm He. unfold shr_fexp, shr.
  assert (0 < Zdigits2 m) as Hd by (destruct m; cbn; lia).
  destruct (fexp Float.prec Float.emax (Zdigits2 m + e) - e) as [|n|n] eqn:Hn;
    cbn [fst snd]; rewrite ?shr_m_of_loc; try (split; lia).
  destruct (iter_shr_1_digits n (shr_record_of_loc m l)) as [Hpos Hdig];
    [rewrite shr_m_of_loc; lia|].
  rewrite shr_m_of_loc in Hdig.
  unfold fexp, emin, Float.prec, Float.emax in *.
  split; [|lia].
  apply Zdigits2_positive; [exact Hpos|]. rewrite Hdig. lia.
Qed.

Lemma round_nearest_even_grows (m : Z) (l : location) :
  m <= round_nearest_even m l.
Proof.
  destruct l as [|[]]; cbn; try destruct (Z.even m); lia.
Qed.

Lemma binary_round_aux_sign (sx : bool) (mx ex : Z) (lx : location) :
  0 <= mx ->
  sign_bit (binary_round_aux Float.prec Float.emax sx mx ex lx) = sx.
Proof.
  intros Hm. unfold binary_round_aux.
  pose proof (shr_fexp_nonneg mx ex lx Hm) as H1.
  destruct (shr_fexp Float.prec Float.emax mx ex lx) as [mrs' e'].
  cbn [fst] in H1.
  pose proof (round_nearest_even_grows (shr_m mrs') (loc_of_shr_record mrs'))
    as Hround.
  pose proof (shr_fexp_nonneg
                (round_nearest_even (shr_m mrs') (loc_of_shr_record mrs'))
                e' loc_Exact ltac:(lia)) as H2.
  destruct (shr_fexp Float.prec Float.emax _ e' loc_Exact) as [mrs'' e''].
  cbn [fst] in H2.
  destruct (shr_m mrs'') as [|m|m]; [reflexivity| |lia].
  destruct (_ <=? _); reflexivity.
Qed.

Lemma binary_round_aux_nonzero (sx : bool) (mx ex : Z) (lx : location) :
  0 < mx -> emin Float.prec Float.emax <= ex ->
  Float.is_zero (binary_round_aux Float.prec Float.emax sx mx ex lx) = false.
Proof.
  intros Hm He. unfold binary_round_aux.
  destruct (shr_fexp_positive mx ex lx Hm He) as [H1 E1].
  destruct (shr_fexp Float.prec Float.emax mx ex lx) as [mrs' e'].
  cbn [fst snd] in H1, E1.
  pose proof (round_nearest_even_grows (shr_m mrs') (loc_of_shr_record mrs'))
    as Hround.
  destruct (shr_fexp_positive
              (round_nearest_even (shr_m mrs') (loc_of_shr_record mrs'))
              e' loc_Exact ltac:(lia) E1) as [H2 _].
  destruct (shr_fexp Float.prec Float.emax _ e' loc_Exact) as [mrs'' e''].
  cbn [fst] in H2.
  destruct (shr_m mrs'') as [|m|m]; [lia| |lia].
  destruct (_ <=? _); reflexivity.
Qed.

Lemma binary_round_nonzero (sx : bool) (mx : positive) (ex : Z) :
  emin Float.prec Float.emax <= ex ->
  Float.is_zero (binary_round Float.prec Float.emax sx mx ex) = false.
Proof.
  intros He. unfold binary_round, shl_align.
  destruct (fexp Float.prec Float.emax (Z.pos (digits2_pos mx) + ex) - ex)
    as [|d|d] eqn:Hd;
    apply binary_round_aux_nonzero; try lia.
  unfold fexp in *. lia.
Qed.

Lemma binary_round_sign (sx : bool) (mx : positive) (ex : Z) :
  sign_bit (binary_round Float.prec Float.emax sx mx ex) = sx.
Proof.
  unfold binary_round.
  destruct (shl_align mx ex _) as [mz ez].
  apply binary_round_aux_sign. lia.
Qed.

(** ** The sign of a quotient *)

Lemma div_core_nonneg (m1 m2 : positive) (e1 e2 : Z) :
  0 <= fst (fst (SFdiv_core_binary Float.prec Float.emax
                   (Z.pos m1) e1 (Z.pos m2) e2)).
Proof.
  unfold SFdiv_core_binary. cbv zeta.
  match goal with
  | |- context [Z.div_eucl ?a ?b] =>
      assert (0 <= a) as Ha;
      [|pose proof (Z.div_pos a b Ha ltac:(lia)) as Hq;
        unfold Z.div in Hq; destruct (Z.div_eucl a b) as [q r];
        cbn [fst]; exact Hq]
  end.
  match goal with
  | |- 0 <= match ?s with _ => _ end => destruct s
  end; try lia.
  apply Z.shiftl_nonneg. lia.
Qed.

Lemma div_sign (m : positive) (e : Z) (y : float) :
  sign_bit (Float.ieee_div (S754_finite false m e) y) = sign_bit y.
Proof.
  unfold Float.ieee_div. destruct y as [s|s| |s my ey]; try reflexivity.
  cbn [SFdiv sign_bit].
  pose proof (div_core_nonneg m my e ey) as Hq.
  destruct (SFdiv_core_binary _ _ _ _ _ _) as [[mz ez] lz].
  cbn [fst] in Hq. rewrite binary_round_aux_sign by exact Hq. reflexivity.
Qed.

(** ** When a difference is zero *)

Lemma digits2_iter_xO (m d : positive) :
  Z.pos (digits2_pos (Pos.iter xO m d)) = Z.pos (digits2_pos m) + Z.pos d.
Proof.
  induction d as [|d IH] using Pos.peano_ind.
  - cbn. lia.
  - rewrite Pos.iter_succ. cbn [digits2_pos]. lia.
Qed.

Lemma bounded_canonical (m : positive) (e : Z) :
  bounded Float.prec Float.emax m e = true ->
  fexp Float.prec Float.emax (Z.pos (digits2_pos m) + e) = e.
Proof.
  unfold bounded, canonical_mantissa. intros H.
  apply andb_true_iff in H as [H _]. apply Z.eqb_eq, H.
Qed.

Lemma bounded_emin (m : positive) (e : Z) :
  bounded Float.prec Float.emax m e = true -> emin Float.prec Float.emax <= e.
Proof.
  intros H. apply bounded_canonical in H. unfold fexp in H. lia.
Qed.

Lemma aligned_mantissas_differ (mx my : positive) (ex ey : Z) :
  bounded Float.prec Float.emax mx ex = true ->
  bounded Float.prec Float.emax my ey = true ->
  fst (shl_align mx ex (Z.min ex ey)) = fst (shl_align my ey (Z.min ex ey)) ->
  mx = my /\ ex = ey.
Proof.
  intros Hx Hy. apply bounded_canonical in Hx, Hy.
  unfold shl_align.
  destruct (Z.min ex ey - ex) as [|dx|dx] eqn:Hdx;
    destruct (Z.min ex ey - ey) as [|dy|dy] eqn:Hdy;
    cbn [fst]; intros Heq; try lia.
  - exfalso. pose proof (digits2_iter_xO my dy) as Hd.
    rewrite <- Heq in Hd.
    assert (Z.pos (digits2_pos mx) + ex = Z.pos (digits2_pos my) + ey)
      as Hsame by lia.
    rewrite Hsame in Hx. lia.
  - exfalso. pose proof (digits2_iter_xO mx dx) as Hd.
    rewrite Heq in Hd.
    assert (Z.pos (digits2_pos mx) + ex = Z.pos (digits2_pos my) + ey)
      as Hsame by lia.
    rewrite Hsame in Hx. lia.
Qed.

Lemma sub_finite_nonzero (sx sy : bool) (mx my : positive) (ex ey : Z) :
  bounded Float.prec Float.emax mx ex = true ->
  bounded Float.prec Float.emax my ey = true ->
  ~ (sx = sy /\ mx = my /\ ex = ey) ->
  Float.is_zero (float_sub (S754_finite sx mx ex) (S754_finite sy my ey))
  = false.
Proof.
  intros Hx Hy Hne.
  pose proof (bounded_emin _ _ Hx) as Ex.
  pose proof (bounded_emin _ _ Hy) as Ey.
  unfold float_sub, Float.sub, SFsub. cbv zeta.
  pose proof (aligned_mantissas_differ mx my ex ey Hx Hy) as Hal.
  destruct (shl_align mx ex (Z.min ex ey)) as [ax ex'].
  destruct (shl_align my ey (Z.min ex ey)) as [ay ey'].
  cbn [fst] in *.
  assert (cond_Zopp sx (Z.pos ax) - cond_Zopp sy (Z.pos ay) <> 0) as Hdiff.
  { destruct sx, sy; cbn [cond_Zopp]; try lia;
      intros H0; apply Hne; (split; [reflexivity|]); apply Hal; lia. }
  destruct (cond_Zopp sx (Z.pos ax) - cond_Zopp sy (Z.pos ay)) as [|d|d];
    [congruence| |]; cbn [binary_normalize];
    apply binary_round_nonzero; lia.
Qed.

Lemma eqb_finite (sx sy : bool) (mx my : positive) (ex ey : Z) :
  SFeqb (S754_finite sx mx ex) (S754_finite sy my ey) = true
  <-> sx = sy /\ mx = my /\ ex = ey.
Proof.
  unfold SFeqb, SFcompare. split.
  - destruct sx, sy; try discriminate;
      destruct (Z.compare_spec ex ey) as [He|He|He]; try discriminate;
      fold (Pos.compare mx my);
      destruct (Pos.compare_spec mx my) as [Hm|Hm|Hm]; try discriminate;
      intros _; repeat split; assumption.
  - intros (-> & -> & ->). rewrite Z.compare_refl.
    fold (Pos.compare my my). rewrite Pos.compare_refl.
    destruct sy; reflexivity.
Qed.

Lemma zero_difference_iff_equal (x y : float) :
  is_double x = true -> is_double y = true ->
  Float.is_zero (float_sub x y) = SFeqb x y.
Proof.
  unfold is_double. intros Hx Hy.
  apply andb_true_iff in Hx as [Vx Fx]. apply andb_true_iff in Hy as [Vy Fy].
  destruct x as [sx|sx| |sx mx ex]; try discriminate;
    destruct y as [sy|sy| |sy my ey]; try discriminate.
  - destruct sx, sy; reflexivity.
  - destruct sy; reflexivity.
  - destruct sx; reflexivity.
  - cbn [valid_binary] in Vx, Vy.
    destruct (SFeqb (S754_finite sx mx ex) (S754_finite sy my ey)) eqn:Heq.
    + apply eqb_finite in Heq as (-> & -> & ->).
      apply sub_self_is_zero. reflexivity.
    + apply sub_finite_nonzero; try assumption.
      intros H. apply eqb_finite in H. congruence.
Qed.

Lemma limits_convert :
  Forall (fun limit : Z =>
            exists (m : positive) (e : Z),
              Float.of_int limit = S754_finite false m e) limits.
Proof.
  unfold limits.
  repeat (constructor; [vm_compute; do 2 eexists; reflexivity|]).
  constructor.
Qed.

(** X11.  The throughput has the sign of the measured time, for each of
    the five iteration counts and every float the subtraction can give:
    its text starts with a minus sign exactly when the second reading of
    the clock was below the first, and never when the time is
    positive. *)
Theorem throughput_has_sign_of_elapsed (sec : float) :
  Forall (fun limit : Z =>
            sign_bit (throughput limit sec) = sign_bit sec
            /\ String.prefix "-" (format_float_f true 2 (throughput limit sec))
               = sign_bit sec) limits.
Proof.
  eapply Forall_impl; [exact limits_convert|].
  intros limit (m & e & Hconv). cbn beta.
  assert (sign_bit (throughput limit sec) = sign_bit sec) as Hsign.
  { unfold throughput. rewrite Hconv. apply div_sign. }
  split; [exact Hsign|].
  rewrite <- Hsign. apply format_float_f_sign.
Qed.

(** X12.  With two readings that are doubles, the time a benchmark
    measures is zero exactly when the readings are equal: a difference
    of two distinct doubles is never rounded to zero.  So each benchmark
    raises [ZeroDivisionError] when, and only when, the clock gave the
    same value before and after its loop, and prints its row
    otherwise. *)
Theorem raises_iff_readings_equal (fuel : N) (w : world) :
  int_limit < Z.of_N fuel ->
  is_double (clock w (ticks w)) = true ->
  is_double (clock w (S (ticks w))) = true ->
  let same := SFeqb (clock w (S (ticks w))) (clock w (ticks w)) in
  Float.is_zero (elapsed w) = same
  /\ Forall (fun bench : N -> M unit =>
               fst (bench fuel w)
               = if same then Raised ZeroDivisionError else Done tt)
            [bench_int; bench_double; bench_string; bench_array; bench_struct].
Proof.
  intros Hfuel Hstart Hend same.
  assert (Float.is_zero (elapsed w) = same) as Hzero
      by (apply zero_difference_iff_equal; assumption).
  split; [exact Hzero|]. rewrite <- Hzero.
  fold (outcome_for (elapsed w)).
  repeat constructor.
  - apply bench_int_outcome, Hfuel.
  - apply bench_double_outcome, Hfuel.
  - apply bench_string_outcome, Hfuel.
  - apply bench_array_outcome, Hfuel.
  - apply bench_struct_outcome, Hfuel.
Qed.

Lemma raises_iff_readings_equal_witness :
  int_limit < Z.of_N plenty
  /\ is_double (clock advancing_world (ticks advancing_world)) = true
  /\ is_double (clock advancing_world (S (ticks advancing_world))) = true
  /\ Float.is_zero (elapsed advancing_world) = false.
Proof.
  split; [reflexivity|]. split; [reflexivity|]. split; [reflexivity|].
  exact (proj1 (raises_iff_readings_equal plenty advancing_world
                  eq_refl eq_refl eq_refl)).
Defined.

(** X13.  A clock that never gives a benchmark the same double twice
    lets the run finish: if the ten readings are doubles and the two
    readings of each benchmark differ, the run returns, having printed
    all five rows and the closing rule. *)
Theorem distinct_readings_complete_run (fuel : N) (w : world) :
  int_limit < Z.of_N fuel ->
  (forall n : nat, (n < 10)%nat -> is_double (clock w (n + ticks w)) = true) ->
  (forall k : nat,
      (k < 5)%nat ->
      SFeqb (clock w (2 * k + 1 + ticks w)) (clock w (2 * k + ticks w)) = false) ->
  first_zero w = 5%nat
  /\ exists w' : world,
       main fuel w = (Done tt, w')
       /\ stdout w' = (stdout w ++ preamble ++ data_rows w ++ [rule; ""])%list.
Proof.
  intros Hfuel Hdouble Hdiffer.
  assert (forall k : nat, (k < 5)%nat -> Float.is_zero (sec_of w k) = false)
    as Hnz.
  { intros k Hk. unfold sec_of.
    rewrite zero_difference_iff_equal;
      [apply Hdiffer, Hk | apply Hdouble; lia | apply Hdouble; lia]. }
  split.
  - unfold first_zero.
    rewrite (Hnz 0%nat), (Hnz 1%nat), (Hnz 2%nat), (Hnz 3%nat), (Hnz 4%nat)
      by lia.
    reflexivity.
  - destruct (main_completes fuel w Hfuel Hnz) as (w' & Hrun & Hout & _).
    exists w'. split; assumption.
Qed.

Lemma distinct_readings_complete_run_witness :
  int_limit < Z.of_N plenty
  /\ (forall n : nat,
         (n < 10)%nat ->
         is_double (clock advancing_world (n + ticks advancing_world)) = true)
  /\ (forall k : nat,
         (k < 5)%nat ->
         SFeqb (clock advancing_world (2 * k + 1 + ticks advancing_world))
               (clock advancing_world (2 * k + ticks advancing_world)) = false)
  /\ first_zero advancing_world = 5%nat.
Proof.
  assert (forall n : nat,
             (n < 10)%nat ->
             is_double (clock advancing_world (n + ticks advancing_world))
             = true) as Hdouble.
  { intros n Hn.
    do 10 (destruct n as [|n]; [reflexivity|]). lia. }
  assert (forall k : nat,
             (k < 5)%nat ->
             SFeqb (clock advancing_world (2 * k + 1 + ticks advancing_world))
                   (clock advancing_world (2 * k + ticks advancing_world))
             = false) as Hdiffer.
  { intros k Hk.
    do 5 (destruct k as [|k]; [reflexivity|]). lia. }
  split; [reflexivity|]. split; [exact Hdouble|]. split; [exact Hdiffer|].
  exact (proj1 (distinct_readings_complete_run plenty advancing_world
                  eq_refl Hdouble Hdiffer)).
Defined.
